(** * The training / evaluation loop of the transfer-learning notebook

    A shallow embedding of [PyTorch_Transfer_Learning_Basics_Final.ipynb]:
    the two network definitions ([Net_Seq], [TransferNet]), the optimizer
    set-ups and the function [train], together with the part of the Python
    run time and of the tensor framework that [train] relies on.

    - Python floats are IEEE binary64 numbers: primitive floats.  Python
      ints are [Z].  [%]-formatting and [str.format] are interpreters of the
      format strings of the notebook.
    - The tensor framework is external to the notebook.  Tensors, layers,
      the loss, automatic differentiation and Adam's rule form the interface
      [Torch], which the development is parametric in; what the framework
      does with the objects of the notebook (module flags, [.grad]
      accumulation, [zero_grad], the parameters an optimizer owns) is
      modelled on the parameter store.  [zero_grad] zeroes the gradients in
      place, as the releases of the time of the notebook do.  Framework
      calls are total: a shape error inside a layer is not modelled in the
      value-level forward pass; shapes are followed separately.
    - A command runs on a world and yields a value or a Python exception,
      the final world and the lines printed. *)

From Stdlib Require Import ZArith PrimFloat FloatOps SpecFloat String Ascii DecimalString.
From stdpp Require Import gmap strings list.

Open Scope Z_scope.

(** ** Python numbers *)

Module Py.

(** Exceptions that [train] can raise by itself. *)
Inductive exn :=
  | ZeroDivisionError
  | UnboundLocalError
  | TypeError
  | OverflowError
  | ValueError.

(** [float(z)]: the nearest binary64 number. *)
Definition float_of_int (z : Z) : float :=
  SF2Prim (binary_normalize 53 1024 z 0 false).

(** [x / n] for a float [x] and an int [n]: Python raises on a zero divisor
    instead of returning an infinity or a NaN. *)
Definition float_div_int (x : float) (n : Z) : exn + float :=
  if n =? 0 then inl ZeroDivisionError
  else inr (PrimFloat.div x (float_of_int n)).

(** [a / n] for two ints (true division).  The quotient of the two
    conversions is the correctly rounded quotient as long as both operands
    are below 2^53 in magnitude, which covers every use in [train] (the only
    int numerator there is the literal [0]). *)
Definition int_div_int (a n : Z) : exn + float :=
  if n =? 0 then inl ZeroDivisionError
  else inr (PrimFloat.div (float_of_int a) (float_of_int n)).

(** A value that is an int or a float, as [val_loss] is: it starts as the
    int [0] and becomes a float at the first [+=] of a float. *)
Inductive num :=
  | Int (z : Z)
  | Float (x : float).

Definition to_float (v : num) : float :=
  match v with
  | Int z => float_of_int z
  | Float x => x
  end.

(** [v += x] for a float [x]. *)
Definition add_float (v : num) (x : float) : num :=
  Float (PrimFloat.add (to_float v) x).

(** [v /= n] for an int [n]. *)
Definition div_int (v : num) (n : Z) : exn + float :=
  match v with
  | Int a => int_div_int a n
  | Float x => float_div_int x n
  end.

End Py.

(** ** String formatting *)

Module Fmt.

Definition dec (z : Z) : string := NilZero.string_of_int (Z.to_int z).

Fixpoint replicate_char (n : nat) (c : ascii) : string :=
  match n with
  | O => EmptyString
  | S k => String c (replicate_char k c)
  end.

(** Right-justify in a field of the given minimal width. *)
Definition pad_left (c : ascii) (width : nat) (s : string) : string :=
  replicate_char (width - String.length s)%nat c +:+ s.

(** Round a non-negative rational [num / 2^k] to the nearest integer, ties to
    even: the rounding of the exact binary value that the fixed-point
    conversion performs. *)
Definition round_half_even_pow2 (n : Z) (k : Z) : Z :=
  let den := 2 ^ k in
  let q := n / den in
  let r := n mod den in
  match Z.compare (2 * r) den with
  | Lt => q
  | Gt => q + 1
  | Eq => if Z.even q then q else q + 1
  end.

(** The digits of the scaled magnitude with the decimal point put back. *)
Definition place_point (prec : nat) (scaled : Z) : string :=
  let digits := pad_left "0" (S prec) (dec scaled) in
  let n := String.length digits in
  let ip := String.substring 0 (n - prec) digits in
  match prec with
  | O => ip
  | S _ => ip +:+ "." +:+ String.substring (n - prec) prec digits
  end.

(** The presentation type [f] with a precision: ['%.3f' % x],
    ['{:.3f}'.format(x)]. *)
Definition fixed (prec : nat) (x : float) : string :=
  match Prim2SF x with
  | S754_nan => "nan"
  | S754_infinity s => if s then "-inf" else "inf"
  | S754_zero s => (if s then "-" else EmptyString) +:+ place_point prec 0
  | S754_finite s m e =>
      let scaled :=
        if 0 <=? e then Z.pos m * 2 ^ e * 10 ^ Z.of_nat prec
        else round_half_even_pow2 (Z.pos m * 10 ^ Z.of_nat prec) (- e) in
      (if s then "-" else EmptyString) +:+ place_point prec scaled
  end.

(** [int(x)] for a float: truncation towards zero. *)
Definition trunc (x : float) : Py.exn + Z :=
  match Prim2SF x with
  | S754_nan => inl Py.ValueError
  | S754_infinity _ => inl Py.OverflowError
  | S754_zero _ => inr 0
  | S754_finite s m e =>
      let mag := if 0 <=? e then Z.pos m * 2 ^ e else Z.pos m / 2 ^ (- e) in
      inr (if s then - mag else mag)
  end.

(** An argument of a formatting operation. *)
Inductive arg :=
  | AInt (z : Z)
  | AFloat (x : float).

Definition digit_of (c : ascii) : option nat :=
  let n := nat_of_ascii c in
  if ((48 <=? n) && (n <=? 57))%nat then Some (n - 48)%nat else None.

(** Where the scanner of a format string is. *)
Inductive mode :=
  | Lit
  | Width (w : nat)                 (* after [%] and the width digits read so far *)
  | Prec (w : nat) (p : nat)        (* after [%w.] and the precision digits *)
  | Brace                           (* after [{] *)
  | BraceColon                      (* after [{:] *)
  | BracePrec (p : nat)             (* after [{:.] and the precision digits *)
  | BraceEnd (p : nat).             (* after [{:.pf] *)

Definition conv_d (w : nat) (a : arg) : Py.exn + string :=
  match a with
  | AInt z => inr (pad_left " " w (dec z))
  | AFloat x =>
      match trunc x with
      | inl e => inl e
      | inr z => inr (pad_left " " w (dec z))
      end
  end.

Definition conv_f (w p : nat) (a : arg) : string :=
  match a with
  | AInt z => pad_left " " w (fixed p (Py.float_of_int z))
  | AFloat x => pad_left " " w (fixed p x)
  end.

Definition emit (s : string) (r : Py.exn + string) : Py.exn + string :=
  match r with
  | inl e => inl e
  | inr t => inr (s +:+ t)
  end.

(** The [%] operator of [str] with a tuple of arguments, for the conversions
    [%d] and [%f] with an optional width and precision and for [%%]. *)
Fixpoint percent_go (m : mode) (fmt : string) (args : list arg) : Py.exn + string :=
  match fmt with
  | EmptyString =>
      match m, args with
      | Lit, [] => inr EmptyString
      | Lit, _ :: _ => inl Py.TypeError      (* not all arguments converted *)
      | _, _ => inl Py.ValueError            (* incomplete format *)
      end
  | String c rest =>
      match m with
      | Lit =>
          if Ascii.eqb c "%" then percent_go (Width 0) rest args
          else emit (String c EmptyString) (percent_go Lit rest args)
      | Width w =>
          if Ascii.eqb c "%" then emit "%" (percent_go Lit rest args)
          else if Ascii.eqb c "." then percent_go (Prec w 0) rest args
          else if Ascii.eqb c "d" then
            match args with
            | [] => inl Py.TypeError         (* not enough arguments *)
            | a :: args' =>
                match conv_d w a with
                | inl e => inl e
                | inr s => emit s (percent_go Lit rest args')
                end
            end
          else if Ascii.eqb c "f" then
            match args with
            | [] => inl Py.TypeError
            | a :: args' => emit (conv_f w 6 a) (percent_go Lit rest args')
            end
          else
            match digit_of c with
            | Some d => percent_go (Width (10 * w + d)) rest args
            | None => inl Py.ValueError      (* unsupported format character *)
            end
      | Prec w p =>
          if Ascii.eqb c "f" then
            match args with
            | [] => inl Py.TypeError
            | a :: args' => emit (conv_f w p a) (percent_go Lit rest args')
            end
          else
            match digit_of c with
            | Some d => percent_go (Prec w (10 * p + d)) rest args
            | None => inl Py.ValueError
            end
      | _ => inl Py.ValueError
      end
  end.

Definition percent (fmt : string) (args : list arg) : Py.exn + string :=
  percent_go Lit fmt args.

(** [str.format] with positional arguments, for replacement fields of the
    form [{:.Nf}]. *)
Fixpoint format_go (m : mode) (fmt : string) (args : list arg) : Py.exn + string :=
  match fmt with
  | EmptyString =>
      match m with
      | Lit => inr EmptyString
      | _ => inl Py.ValueError
      end
  | String c rest =>
      match m with
      | Lit =>
          if Ascii.eqb c "{" then format_go Brace rest args
          else if Ascii.eqb c "}" then inl Py.ValueError
          else emit (String c EmptyString) (format_go Lit rest args)
      | Brace =>
          if Ascii.eqb c ":" then format_go BraceColon rest args
          else inl Py.ValueError
      | BraceColon =>
          if Ascii.eqb c "." then format_go (BracePrec 0) rest args
          else inl Py.ValueError
      | BracePrec p =>
          if Ascii.eqb c "f" then format_go (BraceEnd p) rest args
          else
            match digit_of c with
            | Some d => format_go (BracePrec (10 * p + d)) rest args
            | None => inl Py.ValueError
            end
      | BraceEnd p =>
          if Ascii.eqb c "}" then
            match args with
            | [] => inl Py.ValueError        (* IndexError in CPython *)
            | a :: args' => emit (conv_f 0 p a) (format_go Lit rest args')
            end
          else inl Py.ValueError
      | _ => inl Py.ValueError
      end
  end.

Definition format (fmt : string) (args : list arg) : Py.exn + string :=
  format_go Lit fmt args.

End Fmt.


(** ** Network architectures *)

(** The layer classes the notebook instantiates.  [Conv2d] has stride 1 and
    [MaxPool2d k] has stride [k], the defaults the notebook leaves in place. *)
Inductive layer :=
  | Conv2d (cin cout k pad : Z)
  | ReLU
  | MaxPool2d (k : Z)
  | Dropout
  | Linear (fin fout : Z).

(** A layer module with its [training] attribute. *)
Record lmod := LMod { l_layer : layer; l_training : bool }.

(** An [nn.Sequential] block: its own [training] attribute and its children. *)
Record sequential := Sequential { seq_training : bool; seq_items : list lmod }.

(** Both classes of the notebook have the same outline: a first block, a
    [view(-1, flat)] and the block [dense]. *)
Record net := Net {
  net_training : bool;
  features_name : string;
  features : sequential;
  flat : Z;
  dense : sequential;
}.

(** Modules are constructed in training mode. *)
Definition nn_Sequential (ls : list layer) : sequential :=
  Sequential true (map (fun l => LMod l true) ls).

Definition seq_layers (s : sequential) : list layer := map l_layer (seq_items s).

Definition Net_Seq : net :=
  {| net_training := true;
     features_name := "convs";
     features := nn_Sequential
       [ Conv2d 3 16 3 0; ReLU; MaxPool2d 2;
         Conv2d 16 32 3 0; ReLU; MaxPool2d 2;
         Conv2d 32 64 3 0; ReLU; MaxPool2d 2 ];
     flat := 64 * 26 * 26;
     dense := nn_Sequential
       [ Dropout; Linear (64 * 26 * 26) 128; ReLU; Dropout; Linear 128 10 ] |}.

(** [torchvision.models.vgg16(...).features]: configuration D of the model
    zoo, thirteen 3x3 convolutions with padding 1 and five 2x2 poolings. *)
Definition vgg16_features : list layer :=
  [ Conv2d 3 64 3 1; ReLU; Conv2d 64 64 3 1; ReLU; MaxPool2d 2;
    Conv2d 64 128 3 1; ReLU; Conv2d 128 128 3 1; ReLU; MaxPool2d 2;
    Conv2d 128 256 3 1; ReLU; Conv2d 256 256 3 1; ReLU; Conv2d 256 256 3 1; ReLU;
    MaxPool2d 2;
    Conv2d 256 512 3 1; ReLU; Conv2d 512 512 3 1; ReLU; Conv2d 512 512 3 1; ReLU;
    MaxPool2d 2;
    Conv2d 512 512 3 1; ReLU; Conv2d 512 512 3 1; ReLU; Conv2d 512 512 3 1; ReLU;
    MaxPool2d 2 ].

Definition TransferNet : net :=
  {| net_training := true;
     features_name := "pretrained_layers";
     features := nn_Sequential vgg16_features;
     flat := 512 * 7 * 7;
     dense := nn_Sequential
       [ Dropout; Linear (512 * 7 * 7) 4000; ReLU; Dropout;
         Linear 4000 256; ReLU; Dropout; Linear 256 10 ] |}.

(** *** Modes *)

(** [Module.train(mode)]: sets the attribute on the module and on every
    descendant. *)
Definition seq_set_mode (mode : bool) (s : sequential) : sequential :=
  Sequential mode (map (fun m => LMod (l_layer m) mode) (seq_items s)).

Definition set_mode (mode : bool) (n : net) : net :=
  {| net_training := mode;
     features_name := features_name n;
     features := seq_set_mode mode (features n);
     flat := flat n;
     dense := seq_set_mode mode (dense n) |}.

(** *** Shapes *)

Definition shape := list Z.

Definition numel (s : shape) : Z := fold_right Z.mul 1 s.

Definition layer_shape (l : layer) (s : shape) : option shape :=
  match l with
  | Conv2d cin cout k pad =>
      match s with
      | [b; c; h; w] =>
          if (c =? cin) && (k <=? h + 2 * pad) && (k <=? w + 2 * pad)
          then Some [b; cout; h + 2 * pad - k + 1; w + 2 * pad - k + 1]
          else None
      | _ => None
      end
  | MaxPool2d k =>
      match s with
      | [b; c; h; w] =>
          if (0 <? k) && (k <=? h) && (k <=? w)
          then Some [b; c; (h - k) / k + 1; (w - k) / k + 1]
          else None
      | _ => None
      end
  | Linear fin fout =>
      match rev s with
      | f :: front => if f =? fin then Some (rev (fout :: front)) else None
      | [] => None
      end
  | ReLU | Dropout => Some s
  end.

Fixpoint layers_shape (ls : list layer) (s : shape) : option shape :=
  match ls with
  | [] => Some s
  | l :: ls' =>
      match layer_shape l s with
      | Some s' => layers_shape ls' s'
      | None => None
      end
  end.

(** [x.view(-1, n)]: the first dimension is inferred from the number of
    elements, which [n] has to divide. *)
Definition view_shape (n : Z) (s : shape) : option shape :=
  if (0 <? n) && (numel s mod n =? 0) then Some [numel s / n; n] else None.

Definition forward_shape (n : net) (s : shape) : option shape :=
  match layers_shape (seq_layers (features n)) s with
  | Some s1 =>
      match view_shape (flat n) s1 with
      | Some s2 => layers_shape (seq_layers (dense n)) s2
      | None => None
      end
  | None => None
  end.

(** *** Parameter names *)

Definition has_params (l : layer) : bool :=
  match l with
  | Conv2d _ _ _ _ | Linear _ _ => true
  | _ => false
  end.

Definition pname (block : string) (idx : nat) (field : string) : string :=
  block +:+ "." +:+ Fmt.dec (Z.of_nat idx) +:+ "." +:+ field.

(** The names [named_parameters] gives to the parameters of a block whose
    first child has index [idx]. *)
Fixpoint block_params (block : string) (idx : nat) (ls : list layer) : list string :=
  match ls with
  | [] => []
  | l :: ls' =>
      (if has_params l then [pname block idx "weight"; pname block idx "bias"] else [])
        ++ block_params block (S idx) ls'
  end.

Definition features_params (n : net) : list string :=
  block_params (features_name n) 0 (seq_layers (features n)).

Definition dense_params (n : net) : list string :=
  block_params "dense" 0 (seq_layers (dense n)).

(** [model.parameters()], by name. *)
Definition parameters (n : net) : list string :=
  features_params n ++ dense_params n.

(** ** The tensor framework *)

(** What the notebook uses of the framework.  Tensors and the state of the
    random number generator are opaque; the operations are the calls that
    [forward] and [train] make. *)
Class Torch := {
  tensor : Type;
  rngstate : Type;
  (** [torch.zeros_like], also the result of [grad.zero_()] *)
  zeros_like : tensor -> tensor;
  (** accumulation of a gradient into [.grad] *)
  t_add : tensor -> tensor -> tensor;
  (** a layer other than dropout, applied with its weight and bias *)
  apply_layer : layer -> option tensor -> option tensor -> tensor -> tensor;
  (** dropout on a module in training mode: draws a mask *)
  dropout : rngstate -> tensor -> tensor * rngstate;
  (** [x.view(-1, n)] *)
  view : Z -> tensor -> tensor;
  (** [nn.CrossEntropyLoss()(outputs, class_ids)] *)
  cross_entropy : tensor -> list Z -> tensor;
  (** [.item()] of a 0-dimensional tensor *)
  item : tensor -> float;
  (** [outputs.max(1, keepdim=True)[1]]: the arg-max of every row *)
  max_index : tensor -> list Z;
  (** the derivative of the loss of one forward pass (run on the given
      module flags, parameter values and generator state) with respect to
      the named parameter: what [backward] adds to its [.grad] *)
  autograd : net -> gmap string tensor -> rngstate -> tensor -> list Z -> string -> tensor;
  (** Adam's rule for one parameter: learning rate, step number, the two
      moment estimates, the value and the gradient give the new value and
      the new estimates *)
  adam_update : float -> Z -> tensor -> tensor -> tensor -> tensor -> tensor * tensor * tensor;
  (** [100. * correct / n] for a 0-dimensional integer tensor [correct], as
      the number that [format] receives *)
  percent_of_count : Z -> Z -> Fmt.arg;
}.

Set Warnings "-inexact-float".

Section Program.

Context {TT : Torch}.

(** An [nn.Parameter]; [requires_grad] is [True] unless it is switched off. *)
Record param := Param {
  data : tensor;
  grad : option tensor;
  requires_grad : bool;
}.

Definition nn_Parameter (t : tensor) : param := Param t None true.

Record adam_state := AdamState {
  step_count : Z;
  exp_avg : tensor;
  exp_avg_sq : tensor;
}.

(** [optim.Adam(params, lr=...)]: the parameters it was given, by name.  Its
    per-parameter state lives in the world. *)
Record optimizer := Adam {
  opt_params : list string;
  lr : float;
}.

(** The objects [train] works on: the module tree with its flags, the
    parameter objects (shared by the model and the optimizer), the
    optimizer's state and the random number generator. *)
Record world := World {
  model : net;
  params : gmap string param;
  adam : gmap string adam_state;
  rng : rngstate;
}.

Record batch := Batch { inputs : tensor; class_ids : list Z }.

(** *** Forward pass *)

Definition layer_forward (P : gmap string param) (block : string) (idx : nat)
    (m : lmod) (r : rngstate) (x : tensor) : tensor * rngstate :=
  match l_layer m with
  | Dropout => if l_training m then dropout r x else (x, r)
  | l =>
      (apply_layer l (data <$> P !! pname block idx "weight")
                     (data <$> P !! pname block idx "bias") x, r)
  end.

Fixpoint items_forward (P : gmap string param) (block : string) (idx : nat)
    (ms : list lmod) (r : rngstate) (x : tensor) : tensor * rngstate :=
  match ms with
  | [] => (x, r)
  | m :: ms' =>
      let '(y, r') := layer_forward P block idx m r x in
      items_forward P block (S idx) ms' r' y
  end.

Definition seq_forward (P : gmap string param) (block : string) (s : sequential)
    (r : rngstate) (x : tensor) : tensor * rngstate :=
  items_forward P block 0 (seq_items s) r x.

(** [forward] of [Net_Seq] and of [TransferNet]. *)
Definition forward (n : net) (P : gmap string param) (r : rngstate) (x : tensor)
    : tensor * rngstate :=
  let '(x1, r1) := seq_forward P (features_name n) (features n) r x in
  let x2 := view (flat n) x1 in
  seq_forward P "dense" (dense n) r1 x2.

(** *** Gradients and the optimizer *)

Definition zero_one (p : param) : param :=
  Param (data p) (zeros_like <$> grad p) (requires_grad p).

(** [optimizer.zero_grad()]: for every parameter of the optimizer whose
    [.grad] is not [None], zero it. *)
Definition zero_grad (opt : optimizer) (P : gmap string param) : gmap string param :=
  fold_left (fun acc name => alter zero_one name acc) (opt_params opt) P.

Definition accumulate (g : tensor) (p : param) : param :=
  if requires_grad p
  then Param (data p)
             (Some (match grad p with None => g | Some old => t_add old g end))
             true
  else p.

(** [temp_loss.backward()]: every parameter of the model that requires a
    gradient receives one, added to what its [.grad] holds. *)
Definition backward (g : string -> tensor) (P : gmap string param) : gmap string param :=
  map_imap (fun name p => Some (accumulate (g name) p)) P.

Definition adam_init (p : param) : adam_state :=
  AdamState 0 (zeros_like (data p)) (zeros_like (data p)).

Definition adam_one (rate : float) (name : string)
    (PS : gmap string param * gmap string adam_state)
    : gmap string param * gmap string adam_state :=
  match PS.1 !! name with
  | Some p =>
      match grad p with
      | None => PS
      | Some g =>
          let st := default (adam_init p) (PS.2 !! name) in
          let t := step_count st + 1 in
          let '(d, m, v) := adam_update rate t (exp_avg st) (exp_avg_sq st) (data p) g in
          (<[name := Param d (grad p) (requires_grad p)]> PS.1,
           <[name := AdamState t m v]> PS.2)
      end
  | None => PS
  end.

(** [optimizer.step()]: for every parameter of the optimizer, skipping those
    without a gradient. *)
Definition adam_step (opt : optimizer) (PS : gmap string param * gmap string adam_state)
    : gmap string param * gmap string adam_state :=
  fold_left (fun acc name => adam_one (lr opt) name acc) (opt_params opt) PS.

(** *** Commands: a world, a possible exception, and what was printed *)

Record outcome (A : Type) := Outcome {
  result : Py.exn + A;
  final : world;
  printed : list string;
}.
Arguments Outcome {A}.
Arguments result {A}.
Arguments final {A}.
Arguments printed {A}.

Definition M (A : Type) : Type := world -> outcome A.

Definition ret {A} (a : A) : M A := fun w => Outcome (inr a) w [].

Definition bind {A B} (m : M A) (f : A -> M B) : M B :=
  fun w =>
    let o := m w in
    match result o with
    | inl e => Outcome (inl e) (final o) (printed o)
    | inr a =>
        let o' := f a (final o) in
        Outcome (result o') (final o') (printed o ++ printed o')
    end.

Definition lift {A} (r : Py.exn + A) : M A := fun w => Outcome r w [].

Definition get : M world := fun w => Outcome (inr w) w [].

Definition modify (f : world -> world) : M unit := fun w => Outcome (inr tt) (f w) [].

Definition print (s : string) : M unit := fun w => Outcome (inr tt) w [s].

Notation "'let*' x ':=' m 'in' k" := (bind m (fun x => k))
  (at level 10, x pattern, m at level 100, k at level 200, only parsing).
Notation "m ';;' k" := (bind m (fun _ => k))
  (at level 100, k at level 200, right associativity, only parsing).

(** [for i, x in enumerate(xs, start)]: the loop variable is a local of the
    function, so it keeps its previous binding when [xs] is empty. *)
Fixpoint for_enumerate {A S : Type} (body : Z -> A -> S -> M S)
    (start : Z) (xs : list A) (i : option Z) (s : S) : M (option Z * S) :=
  match xs with
  | [] => ret (i, s)
  | x :: xs' =>
      let* s' := body start x s in
      for_enumerate body (start + 1) xs' (Some start) s'
  end.

Definition read_var {A} (v : option A) : M A :=
  match v with
  | Some a => ret a
  | None => lift (inl Py.UnboundLocalError)
  end.

(** *** Statements of [train] *)

Definition model_train : M unit :=
  modify (fun w => World (set_mode true (model w)) (params w) (adam w) (rng w)).

Definition model_eval : M unit :=
  modify (fun w => World (set_mode false (model w)) (params w) (adam w) (rng w)).

(** [model(inputs)] *)
Definition call_model (x : tensor) : M tensor :=
  fun w =>
    let '(y, r) := forward (model w) (params w) (rng w) x in
    Outcome (inr y) (World (model w) (params w) (adam w) r) [].

Definition optimizer_zero_grad (opt : optimizer) : M unit :=
  modify (fun w => World (model w) (zero_grad opt (params w)) (adam w) (rng w)).

Definition loss_backward (g : string -> tensor) : M unit :=
  modify (fun w => World (model w) (backward g (params w)) (adam w) (rng w)).

Definition optimizer_step (opt : optimizer) : M unit :=
  modify (fun w =>
    let PS := adam_step opt (params w, adam w) in
    World (model w) PS.1 PS.2 (rng w)).

Definition batch_size : Z := 4.

(** The loaders as one call of [train] sees them: the batches each yields
    during the epoch of a given number (they reshuffle at every traversal),
    and [len(testloader.dataset)]. *)
Record loaders := Loaders {
  trainloader : nat -> list batch;
  testloader : nat -> list batch;
  testset_len : Z;
}.

Definition train_format : string := "| epoch: %d | %3d*%5d images | loss = %.3f".

Definition nl : string := String "010" EmptyString.

Definition test_format : string :=
  nl +:+ " | Test loss = {:.3f} | Test accuracy = {:.0f}% " +:+ nl.

(** The body of the training loop up to [temp_loss.backward()]; the value is
    [temp_loss].  The gradient that [backward] distributes belongs to the
    forward pass just made, hence to the world before it. *)
Definition forward_backward (opt : optimizer) (b : batch) : M tensor :=
  optimizer_zero_grad opt ;;
  let* w0 := get in
  let* outputs := call_model (inputs b) in
  let temp_loss := cross_entropy outputs (class_ids b) in
  loss_backward (autograd (model w0) (data <$> params w0) (rng w0)
                          (inputs b) (class_ids b)) ;;
  ret temp_loss.

(** The body of the training loop up to [optimizer.step()]; the value is
    [temp_loss.item()]. *)
Definition train_update (opt : optimizer) (b : batch) : M float :=
  let* temp_loss := forward_backward opt b in
  optimizer_step opt ;;
  ret (item temp_loss).

(** One iteration of the training loop; the state is [loss_sum]. *)
Definition train_iteration (opt : optimizer) (epoch : Z) (i : Z) (b : batch)
    (loss_sum : float) : M float :=
  let* l := train_update opt b in
  let loss_sum := PrimFloat.add loss_sum l in
  if i mod 200 =? 199 then
    let* line := lift (Fmt.percent train_format
                   [Fmt.AInt (epoch + 1); Fmt.AInt batch_size; Fmt.AInt (i + 1);
                    Fmt.AFloat (PrimFloat.div loss_sum (Py.float_of_int 200))]) in
    print line ;;
    ret 0%float
  else ret loss_sum.

(** [correct]: the int [0], then a 0-dimensional tensor. *)
Inductive counter :=
  | CInt (z : Z)
  | CTensor (z : Z).

Definition counter_value (c : counter) : Z :=
  match c with CInt z | CTensor z => z end.

(** [c += t] for a 0-dimensional tensor [t]. *)
Definition counter_add (c : counter) (k : Z) : counter := CTensor (counter_value c + k).

(** [preds.eq(class_ids.view_as(preds)).long().cpu().sum()] *)
Fixpoint count_eq (preds labels : list Z) : Z :=
  match preds, labels with
  | p :: preds', l :: labels' => (if p =? l then 1 else 0) + count_eq preds' labels'
  | _, _ => 0
  end.

(** One iteration of the validation loop; the state is [(val_loss, correct)]. *)
Definition eval_iteration (i : Z) (b : batch) (s : Py.num * counter)
    : M (Py.num * counter) :=
  let* outputs := call_model (inputs b) in
  let temp_loss := cross_entropy outputs (class_ids b) in
  let val_loss := Py.add_float s.1 (item temp_loss) in
  let preds := max_index outputs in
  let correct := counter_add s.2 (count_eq preds (class_ids b)) in
  ret (val_loss, correct).

(** [val_loss /= i] *)
Definition average_val_loss (val_loss : Py.num) (i : option Z) : M float :=
  let* iv := read_var i in
  lift (Py.div_int val_loss iv).

(** [100. * correct / len(testloader.dataset)] *)
Definition accuracy (correct : counter) (n : Z) : Py.exn + Fmt.arg :=
  match correct with
  | CInt z =>
      match Py.float_div_int (PrimFloat.mul 100%float (Py.float_of_int z)) n with
      | inl e => inl e
      | inr x => inr (Fmt.AFloat x)
      end
  | CTensor z => inr (percent_of_count z n)
  end.

(** The training pass of one epoch: the value is [(i, loss_sum)]. *)
Definition train_pass (opt : optimizer) (epoch : Z) (bs : list batch) (i : option Z)
    : M (option Z * float) :=
  model_train ;;
  for_enumerate (train_iteration opt epoch) 0 bs i 0%float.

(** The validation pass of one epoch: the value is [(i, (val_loss, correct))]. *)
Definition eval_pass (bs : list batch) (i : option Z)
    : M (option Z * (Py.num * counter)) :=
  model_eval ;;
  for_enumerate eval_iteration 0 bs i (Py.Int 0, CInt 0).

(** The end of an epoch: the average and the report. *)
Definition report (ld : loaders) (i : option Z) (val_loss : Py.num) (correct : counter)
    : M unit :=
  let* val_loss := average_val_loss val_loss i in
  let* acc := lift (accuracy correct (testset_len ld)) in
  let* line := lift (Fmt.format test_format [Fmt.AFloat val_loss; acc]) in
  print line.

(** The body of [for epoch in range(num_epochs)]; the state is [i]. *)
Definition run_epoch (opt : optimizer) (ld : loaders) (epoch : nat) (i : option Z)
    : M (option Z) :=
  let* (i, _) := train_pass opt (Z.of_nat epoch) (trainloader ld epoch) i in
  let* (i, (val_loss, correct)) := eval_pass (testloader ld epoch) i in
  report ld i val_loss correct ;;
  ret i.

Fixpoint run_epochs (opt : optimizer) (ld : loaders) (epochs : list nat) (i : option Z)
    : M (option Z) :=
  match epochs with
  | [] => ret i
  | e :: epochs' =>
      let* i' := run_epoch opt ld e i in
      run_epochs opt ld epochs' i'
  end.

(** [train(model, optimizer, loss, num_epochs)]: the model is the one of the
    world, the loss is the cross entropy. *)
Definition train (opt : optimizer) (ld : loaders) (num_epochs : nat) : M unit :=
  run_epochs opt ld (seq 0 num_epochs) None ;;
  ret tt.

(** *** The two set-ups of the notebook *)

(** [optim.Adam(net.parameters(), lr=0.001)] *)
Definition Net_Seq_optimizer : optimizer := Adam (parameters Net_Seq) 0.001%float.

(** [optim.Adam(chain(fineTune.dense.parameters()), lr=0.001)] *)
Definition fineTune_optimizer : optimizer := Adam (dense_params TransferNet) 0.001%float.

(** A freshly constructed model: every parameter of the module tree is an
    [nn.Parameter] holding its initial (or loaded) value. *)
Definition fresh_params (n : net) (init : string -> tensor) : gmap string param :=
  list_to_map (map (fun name => (name, nn_Parameter (init name))) (parameters n)).

Definition fresh_world (n : net) (init : string -> tensor) (r : rngstate) : world :=
  World n (fresh_params n init) ∅ r.

End Program.

Arguments Outcome {TT A}.
Arguments result {TT A}.
Arguments final {TT A}.
Arguments printed {TT A}.

(** ** What the passes compute

    Closed forms that the properties below relate the loop to: the lines it
    prints, the losses of a pass, and the metrics of the validation pass. *)

Section Reference.

Context {TT : Torch}.

(** The line of the training loop for an epoch index, the number of batches
    seen and the mean it reports. *)
Definition train_line (epoch : Z) (count : Z) (mean : float) : string :=
  "| epoch: " +:+ Fmt.dec (epoch + 1) +:+ " | " +:+
  Fmt.pad_left " " 3 (Fmt.dec batch_size) +:+ "*" +:+
  Fmt.pad_left " " 5 (Fmt.dec count) +:+ " images | loss = " +:+ Fmt.fixed 3 mean.

Definition arg_float (a : Fmt.arg) : float :=
  match a with
  | Fmt.AInt z => Py.float_of_int z
  | Fmt.AFloat x => x
  end.

(** The line at the end of an epoch. *)
Definition test_line (val_loss : float) (acc : Fmt.arg) : string :=
  nl +:+ " | Test loss = " +:+ Fmt.fixed 3 val_loss +:+
  " | Test accuracy = " +:+ Fmt.fixed 0 (arg_float acc) +:+ "% " +:+ nl.

(** The forms the specification gives for the two lines. *)
Definition spec_train_line (epoch : Z) (bsize : Z) (index : Z) (loss : float) : string :=
  "| epoch: " +:+ Fmt.dec epoch +:+ " | " +:+ Fmt.dec bsize +:+ "*" +:+
  Fmt.dec index +:+ " images | loss = " +:+ Fmt.fixed 3 loss +:+ " |".

Definition spec_test_line (loss : float) (acc : float) : string :=
  "| Test loss = " +:+ Fmt.fixed 3 loss +:+ " | Test accuracy = " +:+
  Fmt.fixed 0 acc +:+ "% |".

(** The last character of a string. *)
Fixpoint last_char (s : string) : option ascii :=
  match s with
  | EmptyString => None
  | String c rest =>
      match rest with
      | EmptyString => Some c
      | String _ _ => last_char rest
      end
  end.

Definition spec_form (line : string) : Prop :=
  (exists epoch bsize index loss, line = spec_train_line epoch bsize index loss) \/
  (exists loss acc, line = spec_test_line loss acc).

Definition code_form (line : string) : Prop :=
  (exists epoch count mean, line = train_line epoch count mean) \/
  (exists loss acc, line = test_line loss acc).

(** [temp_loss.item()] of a training iteration started in world [w]. *)
Definition update_loss (opt : optimizer) (b : batch) (w : world) : float :=
  item (cross_entropy
          (forward (model w) (zero_grad opt (params w)) (rng w) (inputs b)).1
          (class_ids b)).

Definition update_world (opt : optimizer) (b : batch) (w : world) : world :=
  final (train_update opt b w).

(** The losses of the successive iterations of a training pass. *)
Fixpoint pass_losses (opt : optimizer) (w : world) (bs : list batch) : list float :=
  match bs with
  | [] => []
  | b :: bs' => update_loss opt b w :: pass_losses opt (update_world opt b w) bs'
  end.

Fixpoint pass_world (opt : optimizer) (w : world) (bs : list batch) : world :=
  match bs with
  | [] => w
  | b :: bs' => pass_world opt (update_world opt b w) bs'
  end.

(** The reporting period of the training loop. *)
Definition report_every : nat := 200.

(** A running sum, started at [0.0] and extended in order. *)
Definition fsum (l : list float) : float := fold_left PrimFloat.add l 0%float.

(** The [k]-th full window of losses and its mean. *)
Definition window (k : nat) (L : list float) : list float :=
  take report_every (drop (report_every * k) L).

Definition window_mean (k : nat) (L : list float) : float :=
  PrimFloat.div (fsum (window k L)) (Py.float_of_int 200).

(** One line per full window; [q] windows were completed before [L]. *)
Definition window_lines (epoch : Z) (q : nat) (L : list float) : list string :=
  map (fun k => train_line epoch (Z.of_nat (report_every * (q + k + 1))) (window_mean k L))
      (seq 0 (length L / report_every)).

(** The value of a loop variable after [enumerate] over [n] items. *)
Definition loop_var (start : Z) (n : nat) (i : option Z) : option Z :=
  match n with
  | O => i
  | S k => Some (start + Z.of_nat k)
  end.

(** The logits of a batch in evaluation mode. *)
Definition eval_outputs (w : world) (b : batch) : tensor :=
  (forward (set_mode false (model w)) (params w) (rng w) (inputs b)).1.

Definition eval_loss (w : world) (b : batch) : float :=
  item (cross_entropy (eval_outputs w b) (class_ids b)).

(** The number of examples of a batch whose label is the arg-max of the
    logits. *)
Definition eval_hits (w : world) (b : batch) : Z :=
  count_eq (max_index (eval_outputs w b)) (class_ids b).

Definition total_loss (w : world) (bs : list batch) (start : Py.num) : Py.num :=
  fold_left (fun acc b => Py.add_float acc (eval_loss w b)) bs start.

Definition total_hits (w : world) (bs : list batch) (start : counter) : counter :=
  fold_left (fun acc b => counter_add acc (eval_hits w b)) bs start.

Definition grad_of (w : world) (name : string) : option tensor :=
  params w !! name ≫= grad.

Definition data_of (w : world) (name : string) : option tensor :=
  data <$> params w !! name.

(** The number of Adam steps a parameter has received. *)
Definition steps_of (w : world) (name : string) : Z :=
  from_option step_count 0 (adam w !! name).

(** The parameter exists and takes part in gradient computation. *)
Definition trainable (w : world) (name : string) : Prop :=
  exists p, params w !! name = Some p /\ requires_grad p = true.

(** The gradient that the backward pass of an iteration started in [w]
    computes for a parameter. *)
Definition fresh_gradient (opt : optimizer) (b : batch) (w : world) (name : string)
    : tensor :=
  autograd (model w) (data <$> zero_grad opt (params w)) (rng w)
           (inputs b) (class_ids b) name.

(** The world in which the report of an epoch is made, the variables it
    reads, and the lines of the training pass. *)
Definition trained (opt : optimizer) (ld : loaders) (epoch : nat) (w : world) : world :=
  pass_world opt (World (set_mode true (model w)) (params w) (adam w) (rng w))
             (trainloader ld epoch).

Definition validated (opt : optimizer) (ld : loaders) (epoch : nat) (w : world) : world :=
  let w1 := trained opt ld epoch w in
  World (set_mode false (model w1)) (params w1) (adam w1) (rng w1).

Definition index_at_report (ld : loaders) (epoch : nat) (i : option Z) : option Z :=
  loop_var 0 (length (testloader ld epoch))
           (loop_var 0 (length (trainloader ld epoch)) i).

Definition training_lines (opt : optimizer) (ld : loaders) (epoch : nat) (w : world)
    : list string :=
  window_lines (Z.of_nat epoch) 0
    (pass_losses opt (World (set_mode true (model w)) (params w) (adam w) (rng w))
                 (trainloader ld epoch)).

End Reference.

(** ** A small executable framework

    Tensors are single numbers and every layer other than dropout is the
    identity, so that the loss of a batch in evaluation mode is its input.
    It serves to run [train] on concrete loaders. *)

Module Toy.

Definition mask (r : Z) (x : float) : float * Z :=
  (if r mod 4 =? 3 then 0%float else PrimFloat.mul 2%float x, r + 1).

Definition sign_index (x : float) : list Z :=
  [if PrimFloat.ltb 0%float x then 1 else 0].

Definition descend (rate : float) (t : Z) (m v p g : float) : float * float * float :=
  (PrimFloat.sub p (PrimFloat.mul rate g), g, PrimFloat.mul g g).

Definition ratio (c n : Z) : Fmt.arg :=
  Fmt.AFloat (PrimFloat.div (PrimFloat.mul 100%float (Py.float_of_int c))
                            (Py.float_of_int n)).

#[global] Instance torch : Torch :=
  {| tensor := float;
     rngstate := Z;
     zeros_like := fun _ => 0%float;
     t_add := PrimFloat.add;
     apply_layer := fun _ _ _ x => x;
     dropout := mask;
     view := fun _ x => x;
     cross_entropy := fun out _ => out;
     item := fun x => x;
     max_index := sign_index;
     autograd := fun _ _ _ _ _ _ => 1%float;
     adam_update := descend;
     percent_of_count := ratio |}.

(** A batch of one example whose loss in evaluation mode is [x]. *)
Definition batch_of (x : float) (label : Z) : batch := Batch x [label].

(** Loaders that yield the same batches in every epoch. *)
Definition loaders_of (train test : list batch) (n : Z) : loaders :=
  Loaders (fun _ => train) (fun _ => test) n.

Definition fineTune : world := fresh_world TransferNet (fun _ => 0.5%float) 0.

Definition baseline : world := fresh_world Net_Seq (fun _ => 0.5%float) 0.

(** One training batch; two validation batches, of losses 1 and 2. *)
Definition two_validation_batches : loaders :=
  loaders_of [batch_of 1 0] [batch_of 1 1; batch_of 2 0] 2.

(** One training batch and one validation batch. *)
Definition one_validation_batch : loaders :=
  loaders_of [batch_of 1 0] [batch_of 1 1] 1.

(** Two training batches and an empty validation set. *)
Definition no_validation_batch : loaders :=
  loaders_of [batch_of 1 0; batch_of 2 0] [] 0.

(** Both sets empty. *)
Definition no_batch : loaders := loaders_of [] [] 0.

(** Two hundred training batches, so that one window is complete. *)
Definition one_window : loaders :=
  loaders_of (replicate 200 (batch_of 1 0)) [batch_of 1 1; batch_of 2 0] 2.

End Toy.

(** ** The plotting helper and the prediction cell *)

Module Plot.

(** Exceptions that [plots_ims] and the indexing of [classes] can raise. *)
Inductive exn :=
  | ZeroDivisionError
  | IndexError.

(** [rows = len(ims)//cols if len(ims) % cols == 0 else len(ims)//cols + 1]:
    the condition is evaluated first, and [%] raises on a zero divisor. *)
Definition grid_rows (n cols : Z) : exn + Z :=
  if cols =? 0 then inl ZeroDivisionError
  else if n mod cols =? 0 then inr (n / cols) else inr (n / cols + 1).

(** One call of [f.add_subplot(rows, cols, index)] with the image shown in
    it and the title set on it, if any. *)
Record subplot (A : Type) := Subplot {
  sp_index : Z;
  sp_image : A;
  sp_title : option string;
}.
Arguments Subplot {A}.
Arguments sp_index {A}.
Arguments sp_image {A}.
Arguments sp_title {A}.

(** [plt.figure(figsize=(18, 3*rows))] and what was added to it. *)
Record figure (A : Type) := Figure {
  fig_rows : Z;
  fig_cols : Z;
  fig_height : Z;
  fig_axes : list (subplot A);
}.
Arguments Figure {A}.
Arguments fig_rows {A}.
Arguments fig_cols {A}.
Arguments fig_height {A}.
Arguments fig_axes {A}.

(** [titles[i]] for an index that is not negative. *)
Definition title_at (titles : list string) (i : nat) : exn + string :=
  match titles !! i with
  | Some t => inr t
  | None => inl IndexError
  end.

(** The loop [for i in range(len(ims))]: the subplots added so far, and the
    exception that stopped the loop, if any.  A subplot whose title cannot
    be read has been added and shown before the exception. *)
Fixpoint draw {A : Type} (titles : option (list string)) (i : nat) (ims : list A)
    : list (subplot A) * option exn :=
  match ims with
  | [] => ([], None)
  | im :: ims' =>
      match titles with
      | None =>
          let '(rest, e) := draw titles (S i) ims' in
          (Subplot (Z.of_nat i + 1) im None :: rest, e)
      | Some ts =>
          match title_at ts i with
          | inl e => ([Subplot (Z.of_nat i + 1) im None], Some e)
          | inr t =>
              let '(rest, e) := draw titles (S i) ims' in
              (Subplot (Z.of_nat i + 1) im (Some t) :: rest, e)
          end
      end
  end.

(** [plots_ims(ims, cols, titles)]; [unnormal] is the rescaling of an image
    to the unit interval that the list comprehension performs.  The value
    is the figure as it stands when the function returns or raises; no
    figure exists yet when [rows] cannot be computed. *)
Definition plots_ims {A : Type} (unnormal : A -> A) (ims : list A) (cols : Z)
    (titles : option (list string)) : option (figure A) * option exn :=
  match grid_rows (Z.of_nat (length ims)) cols with
  | inl e => (None, Some e)
  | inr rows =>
      let '(axes, e) := draw titles 0 (map unnormal ims) in
      (Some (Figure rows cols (3 * rows) axes), e)
  end.

(** [classes] *)
Definition classes : list string :=
  ["plane"; "bird"; "car"; "cat"; "deer"; "dog"; "horse"; "monkey"; "ship"; "truck"].

(** [a[k]] for an array and an int: negative indices count from the end. *)
Definition np_item (a : list string) (k : Z) : exn + string :=
  let n := Z.of_nat (length a) in
  if (0 <=? k) && (k <? n) then title_at a (Z.to_nat k)
  else if (- n <=? k) && (k <? 0) then title_at a (Z.to_nat (n + k))
  else inl IndexError.

(** [a[idx]] for an array of ints [idx]. *)
Fixpoint np_take (a : list string) (idx : list Z) : exn + list string :=
  match idx with
  | [] => inr []
  | k :: idx' =>
      match np_item a k with
      | inl e => inl e
      | inr t =>
          match np_take a idx' with
          | inl e => inl e
          | inr ts => inr (t :: ts)
          end
      end
  end.

End Plot.

Section Cells.

Context {TT : Torch}.

(** The images of a batch, as iterating over the tensor yields them. *)
Variable images_of : tensor -> list tensor.

(** The rescaling of one image by [plots_ims]. *)
Variable unnormal : tensor -> tensor.

(** The cell that shows samples of the training loader:
    [plots_ims(ims, titles=classes[labels.numpy()])]. *)
Definition show_samples (b : batch)
    : Plot.exn + (option (Plot.figure tensor) * option Plot.exn) :=
  match Plot.np_take Plot.classes (class_ids b) with
  | inl e => inl e
  | inr titles => inr (Plot.plots_ims unnormal (images_of (inputs b)) 5 (Some titles))
  end.

(** The last cell: [outputs = fineTune(inputs)], the arg-max of every row,
    the class names of the predictions and the plot.  The forward pass runs
    on the world as [train] left it. *)
Definition show_predictions (b : batch) (w : world)
    : world * (Plot.exn + (option (Plot.figure tensor) * option Plot.exn)) :=
  let '(outputs, r) := forward (model w) (params w) (rng w) (inputs b) in
  (World (model w) (params w) (adam w) r,
   match Plot.np_take Plot.classes (max_index outputs) with
   | inl e => inl e
   | inr titles => inr (Plot.plots_ims unnormal (images_of (inputs b)) 5 (Some titles))
   end).

End Cells.

(** ** More closed forms for the passes *)

Section Reference2.

Context {TT : Torch}.

(** The gradients that the successive iterations of a training pass compute
    for a parameter. *)
Fixpoint pass_gradients (opt : optimizer) (w : world) (bs : list batch) (name : string)
    : list tensor :=
  match bs with
  | [] => []
  | b :: bs' =>
      fresh_gradient opt b w name :: pass_gradients opt (update_world opt b w) bs' name
  end.

(** What [.grad] holds after gradients have been added to it one by one. *)
Definition accumulate_all (start : option tensor) (gs : list tensor) : option tensor :=
  fold_left (fun acc g => Some (match acc with None => g | Some old => t_add old g end))
            gs start.

(** What [.grad] holds when it is zeroed before each gradient is added. *)
Definition latest_gradient (start : option tensor) (gs : list tensor) : option tensor :=
  fold_left (fun acc g =>
               Some (match acc with None => g | Some old => t_add (zeros_like old) g end))
            gs start.

(** The number of validation examples of a list of batches. *)
Definition examples (bs : list batch) : Z :=
  fold_right (fun b n => Z.of_nat (length (class_ids b)) + n) 0 bs.

(** The number of lines a run of [train] prints when no epoch fails. *)
Fixpoint lines_of_run (ld : loaders) (epochs : list nat) : nat :=
  match epochs with
  | [] => 0
  | e :: epochs' => length (trainloader ld e) / report_every + 1 + lines_of_run ld epochs'
  end.

End Reference2.

(** * Properties *)

(** ** Formatting and architecture examples *)

Example fixed_half : Fmt.fixed 3 0.5%float = "0.500"%string.
Proof. vm_compute. reflexivity. Qed.

Example fixed_tie : Fmt.fixed 0 2.5%float = "2"%string.
Proof. vm_compute. reflexivity. Qed.

Example fixed_round : Fmt.fixed 3 (-0.0625)%float = "-0.062"%string.
Proof. vm_compute. reflexivity. Qed.

Example fixed_small : Fmt.fixed 3 0.000244140625%float = "0.000"%string.
Proof. vm_compute. reflexivity. Qed.

Example fixed_big : Fmt.fixed 0 45.5%float = "46"%string.
Proof. vm_compute. reflexivity. Qed.

Example percent_line :
  Fmt.percent "| epoch: %d | %3d*%5d images | loss = %.3f"
    [Fmt.AInt 1; Fmt.AInt 4; Fmt.AInt 200; Fmt.AFloat 2.3125%float]
  = inr "| epoch: 1 |   4*  200 images | loss = 2.312"%string.
Proof. vm_compute. reflexivity. Qed.

Example TransferNet_dense_params :
  dense_params TransferNet =
  ["dense.1.weight"; "dense.1.bias"; "dense.4.weight"; "dense.4.bias";
   "dense.7.weight"; "dense.7.bias"]%string.
Proof. reflexivity. Qed.

Example Net_Seq_shape_1 : forward_shape Net_Seq [1; 3; 224; 224] = Some [1; 10].
Proof. reflexivity. Qed.

Example TransferNet_shape_4 : forward_shape TransferNet [4; 3; 224; 224] = Some [4; 10].
Proof. reflexivity. Qed.

Example Net_Seq_shape_bad : forward_shape Net_Seq [1; 3; 100; 100] = None.
Proof. reflexivity. Qed.

Example toy_one_window :
  printed (train fineTune_optimizer Toy.one_window 1 Toy.fineTune) =
  ["| epoch: 1 |   4*  200 images | loss = 2.000";
   nl +:+ " | Test loss = 3.000 | Test accuracy = 50% " +:+ nl]%string.
Proof. vm_compute. reflexivity. Qed.

(** ** Shapes of the forward pass *)

Lemma view_shape_batch (B c h w n : Z) :
  0 < n -> c * (h * (w * 1)) = n -> view_shape n [B; c; h; w] = Some [B; n].
Proof.
  intros Hn Hprod. unfold view_shape, numel. cbn [fold_right].
  rewrite Hprod, Z.mod_mul, Z.div_mul by lia.
  destruct (Z.ltb_spec 0 n); [reflexivity | lia].
Qed.

Lemma Net_Seq_features_shape (B : Z) :
  layers_shape (seq_layers (features Net_Seq)) [B; 3; 224; 224] = Some [B; 64; 26; 26].
Proof. reflexivity. Qed.

Lemma TransferNet_features_shape (B : Z) :
  layers_shape (seq_layers (features TransferNet)) [B; 3; 224; 224] = Some [B; 512; 7; 7].
Proof. reflexivity. Qed.

(** C5.  For every batch size [B >= 1], the forward pass of both networks
    maps an input of shape (B, 3, 224, 224) to an output of shape (B, 10);
    the last layer of each is the linear projection to the 10 classes, so
    the output is the unnormalized scores. *)
Theorem forward_shape_logits (B : Z) :
  1 <= B ->
  forward_shape Net_Seq [B; 3; 224; 224] = Some [B; 10] /\
  forward_shape TransferNet [B; 3; 224; 224] = Some [B; 10] /\
  last (seq_layers (dense Net_Seq)) = Some (Linear 128 10) /\
  last (seq_layers (dense TransferNet)) = Some (Linear 256 10).
Proof.
  intros _. repeat split.
  - unfold forward_shape. rewrite Net_Seq_features_shape.
    rewrite (view_shape_batch B 64 26 26 (flat Net_Seq)) by (cbn; lia).
    reflexivity.
  - unfold forward_shape. rewrite TransferNet_features_shape.
    rewrite (view_shape_batch B 512 7 7 (flat TransferNet)) by (cbn; lia).
    reflexivity.
Qed.

Lemma forward_shape_logits_witness :
  1 <= 4 /\
  forward_shape Net_Seq [4; 3; 224; 224] = Some [4; 10] /\
  forward_shape TransferNet [4; 3; 224; 224] = Some [4; 10].
Proof.
  split; [lia |].
  destruct (forward_shape_logits 4 ltac:(lia)) as (H1 & H2 & _).
  split; assumption.
Defined.

(** ** Evaluation mode *)

Section Modes.

Context {TT : Torch}.

Lemma seq_set_mode_idem (mode : bool) (s : sequential) :
  seq_set_mode mode (seq_set_mode mode s) = seq_set_mode mode s.
Proof.
  unfold seq_set_mode. cbn [seq_items]. f_equal.
  rewrite map_map. reflexivity.
Qed.

Lemma set_mode_idem (mode : bool) (n : net) :
  set_mode mode (set_mode mode n) = set_mode mode n.
Proof.
  unfold set_mode. cbn [net_training features_name features flat dense].
  rewrite !seq_set_mode_idem. reflexivity.
Qed.

(** With every flag off, a block computes a function of its input alone and
    leaves the generator where it was. *)
Lemma items_forward_eval (P : gmap string param) (block : string) (ms : list lmod) :
  forall (idx : nat) (x : tensor),
    exists y, forall r,
      items_forward P block idx (map (fun m => LMod (l_layer m) false) ms) r x = (y, r).
Proof.
  induction ms as [| m ms IH]; intros idx x.
  - exists x. reflexivity.
  - cbn [map items_forward].
    assert (Hl : exists y, forall r,
               layer_forward P block idx (LMod (l_layer m) false) r x = (y, r)).
    { unfold layer_forward. cbn [l_layer l_training].
      destruct (l_layer m); eexists; intros r; reflexivity. }
    destruct Hl as [y Hy]. destruct (IH (S idx) y) as [z Hz].
    exists z. intros r. rewrite Hy. apply Hz.
Qed.

Lemma forward_eval (n : net) (P : gmap string param) (x : tensor) :
  exists y, forall r, forward (set_mode false n) P r x = (y, r).
Proof.
  unfold forward, seq_forward, set_mode, seq_set_mode.
  cbn [features dense features_name flat seq_items].
  destruct (items_forward_eval P (features_name n) (seq_items (features n)) 0%nat x)
    as [y1 H1].
  destruct (items_forward_eval P "dense" (seq_items (dense n)) 0%nat (view (flat n) y1))
    as [y2 H2].
  exists y2. intros r. rewrite H1. apply H2.
Qed.

(** C8.  Setting evaluation mode twice gives the same module flags, and the
    same world, as setting it once; in evaluation mode the output of the
    forward pass is a function of the parameters and the input: it does not
    depend on the state of the random number generator, and the pass does
    not advance it. *)
Theorem eval_idempotent_deterministic :
  (forall n : net, set_mode false (set_mode false n) = set_mode false n) /\
  (forall w : world, final (model_eval (final (model_eval w))) = final (model_eval w)) /\
  (forall (n : net) (P : gmap string param) (r1 r2 : rngstate) (x : tensor),
      (forward (set_mode false n) P r1 x).1 = (forward (set_mode false n) P r2 x).1) /\
  (forall (n : net) (P : gmap string param) (r : rngstate) (x : tensor),
      (forward (set_mode false n) P r x).2 = r).
Proof.
  split; [| split; [| split]].
  - intros n. apply set_mode_idem.
  - intros w. unfold model_eval, modify. cbn [final model params adam rng].
    rewrite set_mode_idem. reflexivity.
  - intros n P r1 r2 x. destruct (forward_eval n P x) as [y Hy].
    rewrite !Hy. reflexivity.
  - intros n P r x. destruct (forward_eval n P x) as [y Hy].
    rewrite Hy. reflexivity.
Qed.

End Modes.

(** ** Running commands *)

Section Commands.

Context {TT : Torch}.

Lemma outcome_eta {A} (o : outcome A) :
  Outcome (result o) (final o) (printed o) = o.
Proof. destruct o; reflexivity. Qed.

Lemma world_eta (w : world) : World (model w) (params w) (adam w) (rng w) = w.
Proof. destruct w; reflexivity. Qed.

Lemma bind_value {A B} (m : M A) (f : A -> M B) (w w' : world) (a : A) (out : list string) :
  m w = Outcome (inr a) w' out ->
  bind m f w = Outcome (result (f a w')) (final (f a w')) (out ++ printed (f a w')).
Proof. intros H. unfold bind. rewrite H. reflexivity. Qed.

Lemma bind_silent {A B} (m : M A) (f : A -> M B) (w w' : world) (a : A) :
  m w = Outcome (inr a) w' [] -> bind m f w = f a w'.
Proof. intros H. rewrite (bind_value _ _ _ _ _ _ H). apply outcome_eta. Qed.

(** *** The two format strings *)

Lemma append_empty_r (s : string) : s +:+ EmptyString = s.
Proof.
  induction s as [| c s IH]; [reflexivity |].
  change (String c (s +:+ EmptyString) = String c s). rewrite IH. reflexivity.
Qed.

Lemma percent_train_format (epoch count : Z) (mean : float) :
  Fmt.percent train_format
    [Fmt.AInt (epoch + 1); Fmt.AInt batch_size; Fmt.AInt count; Fmt.AFloat mean]
  = inr (train_line epoch count mean).
Proof.
  unfold train_line.
  rewrite <- (append_empty_r (Fmt.fixed 3 mean)).
  reflexivity.
Qed.

Lemma format_test_format (val_loss : float) (acc : Fmt.arg) :
  Fmt.format test_format [Fmt.AFloat val_loss; acc] = inr (test_line val_loss acc).
Proof.
  unfold test_line.
  rewrite <- (append_empty_r nl) at 2.
  destruct acc; reflexivity.
Qed.

(** *** One training iteration *)

Lemma forward_backward_run (opt : optimizer) (b : batch) (w : world) :
  forward_backward opt b w =
  Outcome
    (inr (cross_entropy
            (forward (model w) (zero_grad opt (params w)) (rng w) (inputs b)).1
            (class_ids b)))
    (World (model w)
           (backward (fresh_gradient opt b w) (zero_grad opt (params w)))
           (adam w)
           (forward (model w) (zero_grad opt (params w)) (rng w) (inputs b)).2)
    [].
Proof.
  unfold forward_backward, optimizer_zero_grad, loss_backward, call_model, get, modify,
    ret, bind, fresh_gradient.
  cbn [result final printed model params adam rng].
  destruct (forward (model w) (zero_grad opt (params w)) (rng w) (inputs b)) as [y r].
  reflexivity.
Qed.

Lemma train_update_run (opt : optimizer) (b : batch) (w : world) :
  train_update opt b w = Outcome (inr (update_loss opt b w)) (update_world opt b w) [].
Proof.
  unfold update_world, update_loss, train_update.
  rewrite (bind_silent _ _ _ _ _ (forward_backward_run opt b w)).
  unfold optimizer_step, modify, ret, bind.
  reflexivity.
Qed.

Lemma update_world_eq (opt : optimizer) (b : batch) (w : world) :
  update_world opt b w =
  let w1 := final (forward_backward opt b w) in
  let PS := adam_step opt (params w1, adam w1) in
  World (model w1) PS.1 PS.2 (rng w1).
Proof.
  unfold update_world, train_update.
  rewrite (bind_silent _ _ _ _ _ (forward_backward_run opt b w)).
  rewrite forward_backward_run.
  reflexivity.
Qed.

End Commands.

(** ** The validation pass *)

Section Validation.

Context {TT : Torch}.

Lemma loop_var_next (start : Z) (n : nat) (i : option Z) :
  loop_var (start + 1) n (Some start) = loop_var start (S n) i.
Proof. destruct n; cbn [loop_var]; f_equal; lia. Qed.

Lemma call_model_eval (n : net) (x : tensor) (w : world) :
  model w = set_mode false n ->
  call_model x w = Outcome (inr (forward (model w) (params w) (rng w) x).1) w [].
Proof.
  intros Hm. unfold call_model.
  destruct (forward_eval n (params w) x) as [y Hy].
  rewrite Hm, Hy. cbn [fst]. rewrite <- Hm, world_eta. reflexivity.
Qed.

Lemma eval_outputs_eval (n : net) (w : world) (b : batch) :
  model w = set_mode false n ->
  (forward (model w) (params w) (rng w) (inputs b)).1 = eval_outputs w b.
Proof.
  intros Hm. unfold eval_outputs. rewrite Hm, set_mode_idem. reflexivity.
Qed.

Lemma eval_iteration_run (n : net) (i : Z) (b : batch) (s : Py.num * counter) (w : world) :
  model w = set_mode false n ->
  eval_iteration i b s w =
  Outcome (inr (Py.add_float s.1 (eval_loss w b), counter_add s.2 (eval_hits w b))) w [].
Proof.
  intros Hm. unfold eval_iteration.
  rewrite (bind_silent _ _ _ _ _ (call_model_eval n (inputs b) w Hm)).
  unfold ret, eval_loss, eval_hits.
  rewrite (eval_outputs_eval n w b Hm). reflexivity.
Qed.

Lemma eval_loop_run (n : net) (w : world) (bs : list batch) :
  model w = set_mode false n ->
  forall (start : Z) (i : option Z) (s : Py.num * counter),
    for_enumerate eval_iteration start bs i s w =
    Outcome (inr (loop_var start (length bs) i,
                  (total_loss w bs s.1, total_hits w bs s.2))) w [].
Proof.
  intros Hm. induction bs as [| b bs IH]; intros start i s.
  - destruct s. reflexivity.
  - cbn [for_enumerate].
    rewrite (bind_silent _ _ _ _ _ (eval_iteration_run n start b s w Hm)).
    rewrite IH. cbn [length fst snd total_loss total_hits fold_left].
    rewrite (loop_var_next start (length bs) i). reflexivity.
Qed.

Lemma eval_metrics_mode (w : world) (bs : list batch) (v : Py.num) (c : counter) :
  let we := World (set_mode false (model w)) (params w) (adam w) (rng w) in
  total_loss we bs v = total_loss w bs v /\ total_hits we bs c = total_hits w bs c.
Proof.
  cbn zeta. unfold total_loss, total_hits, eval_loss, eval_hits, eval_outputs.
  cbn [model params adam rng]. rewrite set_mode_idem. split; reflexivity.
Qed.

Lemma eval_pass_run (bs : list batch) (i : option Z) (w : world) :
  eval_pass bs i w =
  Outcome (inr (loop_var 0 (length bs) i,
                (total_loss w bs (Py.Int 0), total_hits w bs (CInt 0))))
          (World (set_mode false (model w)) (params w) (adam w) (rng w)) [].
Proof.
  unfold eval_pass.
  rewrite (bind_silent model_eval _ w
             (World (set_mode false (model w)) (params w) (adam w) (rng w)) tt)
    by reflexivity.
  rewrite (eval_loop_run (model w)) by reflexivity.
  cbn [fst snd].
  destruct (eval_metrics_mode w bs (Py.Int 0) (CInt 0)) as [-> ->].
  reflexivity.
Qed.

(** C9.  The evaluation pass of an epoch switches the module flags to
    evaluation mode and changes nothing else: the parameters (values,
    gradients, [requires_grad]), the optimizer state and the random number
    generator are those the training pass left.  It prints nothing and does
    not fail; its value is the total of the per-batch losses and the number
    of examples whose label is the arg-max of the logits. *)
Theorem eval_pass_only_metrics (bs : list batch) (i : option Z) (w : world) :
  params (final (eval_pass bs i w)) = params w /\
  adam (final (eval_pass bs i w)) = adam w /\
  rng (final (eval_pass bs i w)) = rng w /\
  model (final (eval_pass bs i w)) = set_mode false (model w) /\
  printed (eval_pass bs i w) = [] /\
  result (eval_pass bs i w) =
    inr (loop_var 0 (length bs) i,
         (total_loss w bs (Py.Int 0), total_hits w bs (CInt 0))).
Proof. rewrite eval_pass_run. repeat split. Qed.

End Validation.

(** ** The training pass *)

Section Training.

Context {TT : Torch}.

Lemma report_every_Z : Z.of_nat report_every = 200.
Proof. reflexivity. Qed.

Lemma report_every_pos : (0 < report_every)%nat.
Proof. unfold report_every. lia. Qed.

Local Opaque report_every.

Lemma fsum_snoc (pre : list float) (l : float) :
  fsum (pre ++ [l]) = PrimFloat.add (fsum pre) l.
Proof. unfold fsum. rewrite fold_left_app. reflexivity. Qed.

Lemma full_windows_app (W rest : list float) :
  length W = report_every ->
  (length (W ++ rest) / report_every = S (length rest / report_every))%nat.
Proof.
  intros HW. pose proof report_every_pos.
  rewrite length_app, HW.
  replace (report_every + length rest)%nat with (1 * report_every + length rest)%nat by lia.
  rewrite Nat.div_add_l by lia. reflexivity.
Qed.

Lemma window_lines_short (epoch : Z) (q : nat) (L : list float) :
  (length L < report_every)%nat -> window_lines epoch q L = [].
Proof.
  intros H. unfold window_lines. rewrite Nat.div_small by exact H. reflexivity.
Qed.

Lemma window_shift (k : nat) (W rest : list float) :
  length W = report_every -> window (S k) (W ++ rest) = window k rest.
Proof.
  intros HW. unfold window.
  replace (report_every * S k)%nat with (length W + report_every * k)%nat by lia.
  rewrite drop_app_add. reflexivity.
Qed.

Lemma window_first (W rest : list float) :
  length W = report_every -> window 0 (W ++ rest) = W.
Proof.
  intros HW. unfold window. rewrite Nat.mul_0_r. cbn [drop].
  apply take_app_length'. symmetry. exact HW.
Qed.

Lemma window_lines_full (epoch : Z) (q : nat) (W rest : list float) :
  length W = report_every ->
  window_lines epoch q (W ++ rest) =
  train_line epoch (Z.of_nat (report_every * (q + 1)))
             (PrimFloat.div (fsum W) (Py.float_of_int 200))
    :: window_lines epoch (S q) rest.
Proof.
  intros HW. unfold window_lines.
  rewrite (full_windows_app W rest HW).
  cbn [seq map]. rewrite <- seq_shift, map_map.
  unfold window_mean at 1. rewrite (window_first W rest HW).
  replace (q + 0 + 1)%nat with (q + 1)%nat by lia.
  f_equal. apply map_ext. intros k.
  unfold window_mean. rewrite (window_shift k W rest HW).
  replace (q + S k + 1)%nat with (S q + k + 1)%nat by lia.
  reflexivity.
Qed.

Lemma tail_short (L : list float) :
  (length L < report_every)%nat ->
  drop (report_every * (length L / report_every)) L = L.
Proof.
  intros H. rewrite Nat.div_small by exact H. rewrite Nat.mul_0_r. reflexivity.
Qed.

Lemma tail_full (W rest : list float) :
  length W = report_every ->
  drop (report_every * (length (W ++ rest) / report_every)) (W ++ rest) =
  drop (report_every * (length rest / report_every)) rest.
Proof.
  intros HW. rewrite (full_windows_app W rest HW).
  replace (report_every * S (length rest / report_every))%nat
    with (length W + report_every * (length rest / report_every))%nat by lia.
  apply drop_app_add.
Qed.

Lemma index_mod (q n : nat) :
  (n < report_every)%nat ->
  Z.of_nat (report_every * q + n) mod 200 = Z.of_nat n.
Proof.
  intros H. rewrite Nat2Z.inj_add, Nat2Z.inj_mul, report_every_Z.
  rewrite Z.add_comm, Z.mul_comm, Z.mod_add by lia.
  apply Z.mod_small. pose proof report_every_Z. lia.
Qed.

Lemma train_iteration_run (opt : optimizer) (epoch i : Z) (b : batch) (s : float)
    (w : world) :
  train_iteration opt epoch i b s w =
  let s' := PrimFloat.add s (update_loss opt b w) in
  if i mod 200 =? 199
  then Outcome (inr 0%float) (update_world opt b w)
         [train_line epoch (i + 1) (PrimFloat.div s' (Py.float_of_int 200))]
  else Outcome (inr s') (update_world opt b w) [].
Proof.
  unfold train_iteration.
  rewrite (bind_silent _ _ _ _ _ (train_update_run opt b w)).
  cbn zeta. destruct (i mod 200 =? 199); [| reflexivity].
  rewrite percent_train_format. reflexivity.
Qed.

(** The training loop from a point where [q] windows are complete and the
    losses [pre] of the current window have been added up. *)
Lemma train_loop_run (opt : optimizer) (epoch : Z) (bs : list batch) :
  forall (pre : list float) (q : nat) (i : option Z) (w : world),
    (length pre < report_every)%nat ->
    let start := Z.of_nat (report_every * q + length pre) in
    let L := pre ++ pass_losses opt w bs in
    for_enumerate (train_iteration opt epoch) start bs i (fsum pre) w =
    Outcome
      (inr (loop_var start (length bs) i,
            fsum (drop (report_every * (length L / report_every)) L)))
      (pass_world opt w bs)
      (window_lines epoch q L).
Proof.
  induction bs as [| b bs IH]; intros pre q i w Hpre; cbn zeta.
  - cbn [for_enumerate pass_losses pass_world length loop_var].
    rewrite app_nil_r, (tail_short pre Hpre), (window_lines_short epoch q pre Hpre).
    reflexivity.
  - cbn [for_enumerate pass_losses pass_world length].
    set (l := update_loss opt b w). set (w' := update_world opt b w).
    set (start := Z.of_nat (report_every * q + length pre)).
    rewrite <- (loop_var_next start (length bs) i).
    assert (Hmod : start mod 200 = Z.of_nat (length pre)) by (apply index_mod; exact Hpre).
    pose proof (train_iteration_run opt epoch start b (fsum pre) w) as Hit.
    cbn zeta in Hit. fold l w' in Hit.
    rewrite Hmod, <- (fsum_snoc pre l) in Hit.
    destruct (Z.eqb_spec (Z.of_nat (length pre)) 199) as [Hfull | Hpart].
    + assert (HW : length (pre ++ [l]) = report_every).
      { rewrite length_app. cbn [length]. pose proof report_every_Z. lia. }
      rewrite (bind_value _ _ _ _ _ _ Hit).
      specialize (IH [] (S q) (Some start) w' report_every_pos).
      cbn zeta in IH. cbn [length app] in IH.
      replace (Z.of_nat (report_every * S q + 0)) with (start + 1) in IH
        by (subst start; pose proof report_every_Z; lia).
      change (fsum []) with 0%float in IH.
      rewrite IH. cbn [result final printed app].
      replace (pre ++ l :: pass_losses opt w' bs)
        with ((pre ++ [l]) ++ pass_losses opt w' bs) by (rewrite <- app_assoc; reflexivity).
      rewrite (tail_full _ _ HW), (window_lines_full epoch q _ _ HW).
      replace (Z.of_nat (report_every * (q + 1))) with (start + 1)
        by (subst start; pose proof report_every_Z; lia).
      reflexivity.
    + assert (Hlt : (length (pre ++ [l]) < report_every)%nat).
      { rewrite length_app. cbn [length]. pose proof report_every_Z. lia. }
      rewrite (bind_silent _ _ _ _ _ Hit).
      specialize (IH (pre ++ [l]) q (Some start) w' Hlt).
      cbn zeta in IH.
      replace (Z.of_nat (report_every * q + length (pre ++ [l]))) with (start + 1) in IH
        by (subst start; rewrite length_app; cbn [length]; lia).
      rewrite IH.
      rewrite <- app_assoc. cbn [app]. reflexivity.
Qed.

Lemma train_pass_run (opt : optimizer) (epoch : Z) (bs : list batch) (i : option Z)
    (w : world) :
  let wt := World (set_mode true (model w)) (params w) (adam w) (rng w) in
  let L := pass_losses opt wt bs in
  train_pass opt epoch bs i w =
  Outcome
    (inr (loop_var 0 (length bs) i,
          fsum (drop (report_every * (length L / report_every)) L)))
    (pass_world opt wt bs)
    (window_lines epoch 0 L).
Proof.
  cbn zeta. unfold train_pass.
  rewrite (bind_silent model_train _ w
             (World (set_mode true (model w)) (params w) (adam w) (rng w)) tt)
    by reflexivity.
  pose proof (train_loop_run opt epoch bs [] 0 i
                (World (set_mode true (model w)) (params w) (adam w) (rng w))
                report_every_pos) as H.
  cbn zeta in H. cbn [length app] in H.
  rewrite Nat.mul_0_r in H. exact H.
Qed.

Lemma pass_losses_length (opt : optimizer) (bs : list batch) :
  forall w : world, length (pass_losses opt w bs) = length bs.
Proof.
  induction bs as [| b bs IH]; intros w; cbn [pass_losses length];
    [reflexivity | rewrite IH; reflexivity].
Qed.

(** C7.  In the training pass of an epoch, one line is printed for every
    full window of 200 batches, after the batch of index [i] with [i + 1] a
    multiple of 200; the value it shows is the sum of the 200 losses of that
    window, added up in order from zero, divided by 200.  The sum restarts
    from zero after each line: an iteration whose index is 199 modulo 200
    leaves [loss_sum] at [0.0], and at the end of the pass [loss_sum] is the
    sum of the losses after the last full window. *)
Theorem train_pass_window_means (opt : optimizer) (epoch : Z) (bs : list batch)
    (i : option Z) (w : world) :
  let L := pass_losses opt
             (World (set_mode true (model w)) (params w) (adam w) (rng w)) bs in
  length L = length bs /\
  printed (train_pass opt epoch bs i w) =
    map (fun k =>
           train_line epoch (Z.of_nat (report_every * (k + 1)))
             (PrimFloat.div (fsum (take report_every (drop (report_every * k) L)))
                            (Py.float_of_int 200)))
        (seq 0 (length L / report_every)) /\
  result (train_pass opt epoch bs i w) =
    inr (loop_var 0 (length bs) i,
         fsum (drop (report_every * (length L / report_every)) L)) /\
  (forall (k : Z) (b : batch) (s : float) (w0 : world),
      result (train_iteration opt epoch (200 * k + 199) b s w0) = inr 0%float).
Proof.
  cbn zeta. rewrite train_pass_run. cbn [result printed].
  split; [apply pass_losses_length |].
  split; [reflexivity |].
  split; [reflexivity |].
  intros k b s w0. rewrite train_iteration_run. cbn zeta.
  replace ((200 * k + 199) mod 200) with 199.
  - reflexivity.
  - rewrite Z.add_comm, Z.mul_comm, Z.mod_add by lia. reflexivity.
Qed.

End Training.

(** ** Whole epochs *)

Section Epochs.

Context {TT : Torch}.

Lemma report_run (ld : loaders) (i : option Z) (val_loss : Py.num) (correct : counter)
    (w : world) :
  report ld i val_loss correct w =
  match i with
  | None => Outcome (inl Py.UnboundLocalError) w []
  | Some iv =>
      match Py.div_int val_loss iv with
      | inl e => Outcome (inl e) w []
      | inr v =>
          match accuracy correct (testset_len ld) with
          | inl e => Outcome (inl e) w []
          | inr a => Outcome (inr tt) w [test_line v a]
          end
      end
  end.
Proof.
  unfold report, average_val_loss, read_var, bind, lift, ret, print.
  destruct i as [iv |]; cbn [result final printed app]; [| reflexivity].
  destruct (Py.div_int val_loss iv) as [e | v]; cbn [result final printed app];
    [reflexivity |].
  destruct (accuracy correct (testset_len ld)) as [e | a];
    cbn [result final printed app]; [reflexivity |].
  rewrite format_test_format. reflexivity.
Qed.

Lemma run_epoch_run (opt : optimizer) (ld : loaders) (epoch : nat) (i : option Z)
    (w : world) :
  let w1 := trained opt ld epoch w in
  let r := report ld (index_at_report ld epoch i)
                  (total_loss w1 (testloader ld epoch) (Py.Int 0))
                  (total_hits w1 (testloader ld epoch) (CInt 0))
                  (validated opt ld epoch w) in
  run_epoch opt ld epoch i w =
  Outcome (match result r with
           | inl e => inl e
           | inr _ => inr (index_at_report ld epoch i)
           end)
          (final r)
          (training_lines opt ld epoch w ++ printed r).
Proof.
  cbn zeta. unfold run_epoch.
  rewrite (bind_value _ _ _ _ _ _ (train_pass_run opt (Z.of_nat epoch) _ i w)).
  cbn iota beta.
  rewrite (bind_silent _ _ _ _ _ (eval_pass_run (testloader ld epoch) _ _)).
  fold (trained opt ld epoch w). fold (validated opt ld epoch w).
  fold (index_at_report ld epoch i). fold (training_lines opt ld epoch w).
  unfold bind, ret.
  destruct (result (report ld (index_at_report ld epoch i)
                      (total_loss (trained opt ld epoch w) (testloader ld epoch) (Py.Int 0))
                      (total_hits (trained opt ld epoch w) (testloader ld epoch) (CInt 0))
                      (validated opt ld epoch w))) as [e | []];
    cbn [result final printed]; [reflexivity |].
  rewrite app_nil_r. reflexivity.
Qed.

Lemma total_loss_float (w : world) (bs : list batch) :
  forall v : Py.num, bs <> [] -> exists x, total_loss w bs v = Py.Float x.
Proof.
  induction bs as [| b bs IH]; intros v Hne; [congruence |].
  unfold total_loss. cbn [fold_left].
  destruct bs as [| b' bs'].
  - eexists. reflexivity.
  - apply (IH (Py.add_float v (eval_loss w b))). discriminate.
Qed.

(** C10.  When the validation loader yields exactly one batch, the first
    epoch ends in a [ZeroDivisionError]: the divisor of the average is the
    last index of [enumerate], which is 0. *)
Theorem single_validation_batch_fails (opt : optimizer) (ld : loaders)
    (num_epochs : nat) (w : world) (b : batch) :
  (0 < num_epochs)%nat ->
  testloader ld 0 = [b] ->
  index_at_report ld 0 None = Some 0 /\
  result (train opt ld num_epochs w) = inl Py.ZeroDivisionError.
Proof.
  intros Hn Hb.
  assert (Hi : index_at_report ld 0 None = Some 0).
  { unfold index_at_report. rewrite Hb. reflexivity. }
  split; [exact Hi |].
  destruct num_epochs as [| m]; [lia |].
  unfold train. cbn [seq run_epochs].
  pose proof (run_epoch_run opt ld 0 None w) as Hrun. cbn zeta in Hrun.
  rewrite report_run, Hi in Hrun.
  destruct (total_loss_float (trained opt ld 0 w) (testloader ld 0) (Py.Int 0))
    as [x Hx]; [rewrite Hb; discriminate |].
  rewrite Hx in Hrun. cbn in Hrun.
  unfold bind at 1. unfold bind at 1. rewrite Hrun. reflexivity.
Qed.

(** The divisor of the average is the last index of the validation loop, one
    less than the number of batches. *)
Lemma average_divides_by_last_index (bs : list batch) (i : option Z) (v : Py.num)
    (w : world) :
  bs <> [] ->
  average_val_loss v (loop_var 0 (length bs) i) w =
  lift (Py.div_int v (Z.of_nat (length bs) - 1)) w.
Proof.
  intros Hne. destruct bs as [| b bs]; [congruence |].
  cbn [length loop_var]. unfold average_val_loss, read_var.
  rewrite (bind_silent (ret _) _ w w (0 + Z.of_nat (length bs))) by reflexivity.
  f_equal. f_equal. lia.
Qed.

(** *** The lines that are printed *)

Lemma window_lines_code_form (epoch : Z) (q : nat) (L : list float) :
  Forall code_form (window_lines epoch q L).
Proof.
  unfold window_lines. apply Forall_forall. intros line Hin.
  apply list_elem_of_In, in_map_iff in Hin. destruct Hin as (k & <- & _).
  left. eexists _, _, _. reflexivity.
Qed.

Lemma report_code_form (ld : loaders) (i : option Z) (v : Py.num) (c : counter)
    (w : world) :
  Forall code_form (printed (report ld i v c w)).
Proof.
  rewrite report_run.
  destruct i as [iv |]; [| constructor].
  destruct (Py.div_int v iv) as [e | x]; [constructor |].
  destruct (accuracy c (testset_len ld)) as [e | a]; [constructor |].
  cbn [printed]. constructor; [| constructor].
  right. eexists _, _. reflexivity.
Qed.

Lemma run_epochs_code_form (opt : optimizer) (ld : loaders) (epochs : list nat) :
  forall (i : option Z) (w : world),
    Forall code_form (printed (run_epochs opt ld epochs i w)).
Proof.
  induction epochs as [| e epochs IH]; intros i w.
  - constructor.
  - cbn [run_epochs]. unfold bind at 1.
    pose proof (run_epoch_run opt ld e i w) as Hrun. cbn zeta in Hrun.
    assert (Hp : Forall code_form (printed (run_epoch opt ld e i w))).
    { rewrite Hrun. cbn [printed]. apply Forall_app. split.
      - apply window_lines_code_form.
      - apply report_code_form. }
    destruct (result (run_epoch opt ld e i w)) as [err | i']; cbn [printed].
    + exact Hp.
    + apply Forall_app. split; [exact Hp | apply IH].
Qed.

(** C4 (as the code has it).  Every line that [train] prints is either
    [| epoch: <n> | <batch size, width 3>*<batches seen, width 5> images | loss = <3 decimals>]
    with no closing bar, or a line feed, a space,
    [| Test loss = <3 decimals> | Test accuracy = <0 decimals>% ], a space and
    a line feed, with no closing bar either. *)
Theorem printed_lines_form (opt : optimizer) (ld : loaders) (num_epochs : nat)
    (w : world) :
  Forall
    (fun line =>
       (exists epoch count mean,
           line = "| epoch: " +:+ Fmt.dec (epoch + 1) +:+ " | " +:+
                  Fmt.pad_left " " 3 (Fmt.dec batch_size) +:+ "*" +:+
                  Fmt.pad_left " " 5 (Fmt.dec count) +:+
                  " images | loss = " +:+ Fmt.fixed 3 mean) \/
       (exists loss acc,
           line = nl +:+ " | Test loss = " +:+ Fmt.fixed 3 loss +:+
                  " | Test accuracy = " +:+ Fmt.fixed 0 (arg_float acc) +:+
                  "% " +:+ nl))
    (printed (train opt ld num_epochs w)).
Proof.
  unfold train, bind.
  pose proof (run_epochs_code_form opt ld (seq 0 num_epochs) None w) as H.
  destruct (result (run_epochs opt ld (seq 0 num_epochs) None w)); cbn [printed].
  - exact H.
  - unfold ret. cbn [printed]. rewrite app_nil_r. exact H.
Qed.

End Epochs.

(** ** Runs on the executable framework *)

Lemma single_validation_batch_fails_witness :
  (0 < 1)%nat /\
  testloader Toy.one_validation_batch 0 = [Toy.batch_of 1 1] /\
  result (train fineTune_optimizer Toy.one_validation_batch 1 Toy.fineTune)
    = inl Py.ZeroDivisionError.
Proof.
  split; [lia |]. split; [reflexivity |].
  exact (proj2 (single_validation_batch_fails fineTune_optimizer
                  Toy.one_validation_batch 1 Toy.fineTune (Toy.batch_of 1 1)
                  ltac:(lia) eq_refl)).
Defined.

(** C1.  On a validation loader of two batches whose losses are 1 and 2, the
    loss that the epoch reports is 3, their sum divided by the last index 1,
    where the mean over the two batches is 1.5. *)
Theorem val_loss_divides_by_last_index :
  map (eval_loss Toy.fineTune) (testloader Toy.two_validation_batches 0)
    = [1%float; 2%float] /\
  result (eval_pass (testloader Toy.two_validation_batches 0) (Some 0) Toy.fineTune)
    = inr (Some 1, (Py.Float 3, CTensor 1)) /\
  result (average_val_loss (Py.Float 3) (Some 1) Toy.fineTune) = inr 3%float /\
  printed (train fineTune_optimizer Toy.two_validation_batches 1 Toy.fineTune)
    = [nl +:+ " | Test loss = 3.000 | Test accuracy = 50% " +:+ nl] /\
  Py.float_div_int 3 2 = inr 1.5%float.
Proof. vm_compute. repeat split. Qed.

(** C6.  With two training batches and an empty validation set, the
    averaging statement divides the int [0] by the index the training loop
    left, 1, and yields [0.0]; the run then fails in the accuracy, which
    divides by the number of validation examples.  With no training batch
    either, the averaging statement fails on the unbound [i]. *)
Theorem empty_validation_average :
  result (eval_pass (testloader Toy.no_validation_batch 0) (Some 1) Toy.fineTune)
    = inr (Some 1, (Py.Int 0, CInt 0)) /\
  result (average_val_loss (Py.Int 0) (Some 1) Toy.fineTune) = inr 0%float /\
  accuracy (CInt 0) (testset_len Toy.no_validation_batch) = inl Py.ZeroDivisionError /\
  result (train fineTune_optimizer Toy.no_validation_batch 1 Toy.fineTune)
    = inl Py.ZeroDivisionError /\
  result (average_val_loss (Py.Int 0) None Toy.fineTune) = inl Py.UnboundLocalError /\
  result (train fineTune_optimizer Toy.no_batch 1 Toy.fineTune)
    = inl Py.UnboundLocalError.
Proof. vm_compute. repeat split. Qed.

(** *** The forms the specification gives *)

Lemma last_char_app (s t : string) :
  last_char t = Some "|"%char -> last_char (s +:+ t) = Some "|"%char.
Proof.
  intros Ht. induction s as [| c s IH]; [exact Ht |].
  change (last_char (String c (s +:+ t)) = Some "|"%char).
  cbn [last_char]. destruct (s +:+ t) eqn:E; [discriminate IH | exact IH].
Qed.

Lemma spec_form_ends_with_bar (line : string) :
  spec_form line -> last_char line = Some "|"%char.
Proof.
  intros [(epoch & bsize & index & loss & ->) | (loss & acc & ->)].
  - unfold spec_train_line. repeat apply last_char_app. reflexivity.
  - unfold spec_test_line. repeat apply last_char_app. reflexivity.
Qed.

(** C4 (as the specification has it) fails: the first line of a run with
    200 training batches has padded fields and no closing bar, and the
    epoch-end line starts with a line feed and has no closing bar. *)
Lemma printed_lines_not_spec_form :
  printed (train fineTune_optimizer Toy.one_window 1 Toy.fineTune) =
    ["| epoch: 1 |   4*  200 images | loss = 2.000";
     nl +:+ " | Test loss = 3.000 | Test accuracy = 50% " +:+ nl]%string /\
  ~ spec_form "| epoch: 1 |   4*  200 images | loss = 2.000" /\
  ~ spec_form (nl +:+ " | Test loss = 3.000 | Test accuracy = 50% " +:+ nl) /\
  spec_train_line 1 4 200 2 = "| epoch: 1 | 4*200 images | loss = 2.000 |"%string /\
  spec_test_line 3 50 = "| Test loss = 3.000 | Test accuracy = 50% |"%string.
Proof.
  split; [vm_compute; reflexivity |].
  split; [intros H; apply spec_form_ends_with_bar in H; vm_compute in H; discriminate |].
  split; [intros H; apply spec_form_ends_with_bar in H; vm_compute in H; discriminate |].
  split; vm_compute; reflexivity.
Qed.

(** ** Parameters, gradients and the optimizer *)

Section Parameters.

Context {TT : Torch}.

Implicit Types P : gmap string param.

(** *** Clearing gradients *)

Lemma alter_fold_other (f : param -> param) (names : list string) (name : string) :
  name ∉ names ->
  forall P, fold_left (fun acc n => alter f n acc) names P !! name = P !! name.
Proof.
  induction names as [| n names IH]; intros Hnot P; [reflexivity |].
  apply not_elem_of_cons in Hnot as [Hne Hnot].
  cbn [fold_left]. rewrite (IH Hnot). apply lookup_alter_ne. congruence.
Qed.

Lemma alter_fold_member (f : param -> param) (names : list string) (name : string) :
  NoDup names -> name ∈ names ->
  forall P, fold_left (fun acc n => alter f n acc) names P !! name = f <$> P !! name.
Proof.
  induction names as [| n names IH]; intros Hnd Hin P.
  - apply elem_of_nil in Hin. contradiction.
  - apply NoDup_cons in Hnd as [Hfresh Hnd]. cbn [fold_left].
    destruct (decide (name = n)) as [-> | Hne].
    + rewrite (alter_fold_other f names n Hfresh). apply lookup_alter_eq.
    + apply elem_of_cons in Hin as [Heq | Hin]; [contradiction |].
      rewrite (IH Hnd Hin). rewrite lookup_alter_ne by congruence. reflexivity.
Qed.

Lemma zero_grad_data (opt : optimizer) (name : string) :
  forall P, data <$> zero_grad opt P !! name = data <$> P !! name.
Proof.
  unfold zero_grad. induction (opt_params opt) as [| n names IH]; intros P;
    [reflexivity |].
  cbn [fold_left]. rewrite IH. rewrite lookup_alter. case_decide; [| reflexivity].
  subst n. destruct (P !! name); reflexivity.
Qed.

(** *** The backward pass *)

Lemma backward_lookup (g : string -> tensor) P (name : string) :
  backward g P !! name = accumulate (g name) <$> P !! name.
Proof.
  unfold backward. rewrite map_lookup_imap. destruct (P !! name); reflexivity.
Qed.

Lemma accumulate_data (g : tensor) (p : param) : data (accumulate g p) = data p.
Proof. unfold accumulate. destruct (requires_grad p); reflexivity. Qed.

(** After [zero_grad] and one forward and backward pass, a parameter that
    requires a gradient has one: the fresh gradient, added to the zeroed
    accumulator when the optimizer owns the parameter and to the previous
    gradient when it does not. *)
Lemma forward_backward_grad (opt : optimizer) (b : batch) (w : world) (name : string)
    (p : param) :
  NoDup (opt_params opt) ->
  params w !! name = Some p ->
  requires_grad p = true ->
  params (final (forward_backward opt b w)) !! name =
  Some (Param (data p)
          (Some (match (if bool_decide (name ∈ opt_params opt)
                        then zeros_like <$> grad p else grad p) with
                 | None => fresh_gradient opt b w name
                 | Some old => t_add old (fresh_gradient opt b w name)
                 end))
          true).
Proof.
  intros Hnd Hp Hr. rewrite forward_backward_run. cbn [final params].
  rewrite backward_lookup. unfold zero_grad.
  case_bool_decide as Hin.
  - rewrite (alter_fold_member zero_one _ _ Hnd Hin), Hp. cbn.
    unfold accumulate, zero_one. cbn [requires_grad grad data]. rewrite Hr.
    reflexivity.
  - rewrite (alter_fold_other zero_one _ _ Hin), Hp. cbn.
    unfold accumulate. rewrite Hr. reflexivity.
Qed.

(** *** The optimizer step *)

Lemma adam_one_other (rate : float) (n name : string)
    (PS : gmap string param * gmap string adam_state) :
  name <> n ->
  (adam_one rate n PS).1 !! name = PS.1 !! name /\
  (adam_one rate n PS).2 !! name = PS.2 !! name.
Proof.
  intros Hne. unfold adam_one.
  destruct (PS.1 !! n) as [p |]; [| split; reflexivity].
  destruct (grad p) as [g |]; [| split; reflexivity].
  destruct (adam_update rate _ _ _ _ _) as [[d m] v]. cbn [fst snd].
  split; apply lookup_insert_ne; congruence.
Qed.

Lemma adam_fold_other (rate : float) (names : list string) (name : string) :
  name ∉ names ->
  forall PS : gmap string param * gmap string adam_state,
    (fold_left (fun acc n => adam_one rate n acc) names PS).1 !! name = PS.1 !! name /\
    (fold_left (fun acc n => adam_one rate n acc) names PS).2 !! name = PS.2 !! name.
Proof.
  induction names as [| n names IH]; intros Hnot PS; [split; reflexivity |].
  apply not_elem_of_cons in Hnot as [Hne Hnot].
  cbn [fold_left]. destruct (IH Hnot (adam_one rate n PS)) as [-> ->].
  apply adam_one_other. exact Hne.
Qed.

Lemma adam_fold_member (rate : float) (names : list string) (name : string)
    (p : param) (g : tensor) :
  NoDup names -> name ∈ names ->
  forall PS : gmap string param * gmap string adam_state,
    PS.1 !! name = Some p ->
    grad p = Some g ->
    let st := default (adam_init p) (PS.2 !! name) in
    let r := adam_update rate (step_count st + 1) (exp_avg st) (exp_avg_sq st) (data p) g in
    (fold_left (fun acc n => adam_one rate n acc) names PS).1 !! name
      = Some (Param r.1.1 (Some g) (requires_grad p)) /\
    (fold_left (fun acc n => adam_one rate n acc) names PS).2 !! name
      = Some (AdamState (step_count st + 1) r.1.2 r.2).
Proof.
  induction names as [| n names IH]; intros Hnd Hin PS Hp Hg.
  - apply elem_of_nil in Hin. contradiction.
  - apply NoDup_cons in Hnd as [Hfresh Hnd]. cbn [fold_left]. cbn zeta.
    destruct (decide (name = n)) as [-> | Hne].
    + destruct (adam_fold_other rate names n Hfresh (adam_one rate n PS)) as [-> ->].
      unfold adam_one. rewrite Hp, Hg.
      destruct (adam_update rate _ _ _ _ _) as [[d m] v]. cbn [fst snd].
      rewrite !lookup_insert_eq. split; reflexivity.
    + apply elem_of_cons in Hin as [Heq | Hin]; [contradiction |].
      destruct (adam_one_other rate n name PS Hne) as [H1 H2].
      specialize (IH Hnd Hin (adam_one rate n PS)). cbn zeta in IH.
      rewrite H1, H2 in IH. apply IH; assumption.
Qed.

(** *** One training iteration *)

Lemma update_world_params (opt : optimizer) (b : batch) (w : world) :
  params (update_world opt b w) =
    (adam_step opt (params (final (forward_backward opt b w)), adam w)).1 /\
  adam (update_world opt b w) =
    (adam_step opt (params (final (forward_backward opt b w)), adam w)).2.
Proof.
  rewrite update_world_eq. cbn zeta. rewrite forward_backward_run.
  cbn [final params adam]. split; reflexivity.
Qed.

(** A parameter that the optimizer does not own keeps its value and gets no
    optimizer state. *)
Lemma update_world_other (opt : optimizer) (b : batch) (w : world) (name : string) :
  name ∉ opt_params opt ->
  data_of (update_world opt b w) name = data_of w name /\
  adam (update_world opt b w) !! name = adam w !! name.
Proof.
  intros Hnot. destruct (update_world_params opt b w) as [HP HS].
  unfold data_of. rewrite HP, HS. unfold adam_step.
  destruct (adam_fold_other (lr opt) (opt_params opt) name Hnot
              (params (final (forward_backward opt b w)), adam w)) as [-> ->].
  cbn [fst snd]. split; [| reflexivity].
  rewrite forward_backward_run. cbn [final params].
  rewrite backward_lookup, <- option_fmap_compose.
  rewrite <- (zero_grad_data opt name (params w)).
  destruct (zero_grad opt (params w) !! name) as [p |]; [| reflexivity].
  cbn. rewrite accumulate_data. reflexivity.
Qed.

(** A parameter that the optimizer owns and that requires a gradient
    receives Adam's update. *)
Lemma update_world_member (opt : optimizer) (b : batch) (w : world) (name : string)
    (p : param) :
  NoDup (opt_params opt) ->
  name ∈ opt_params opt ->
  params w !! name = Some p ->
  requires_grad p = true ->
  exists g,
    grad_of (final (forward_backward opt b w)) name = Some g /\
    let st := default (adam_init p) (adam w !! name) in
    let r := adam_update (lr opt) (step_count st + 1) (exp_avg st) (exp_avg_sq st)
                         (data p) g in
    params (update_world opt b w) !! name = Some (Param r.1.1 (Some g) true) /\
    adam (update_world opt b w) !! name = Some (AdamState (step_count st + 1) r.1.2 r.2).
Proof.
  intros Hnd Hin Hp Hr.
  pose proof (forward_backward_grad opt b w name p Hnd Hp Hr) as Hfb.
  destruct (update_world_params opt b w) as [HP HS].
  eexists. split.
  - unfold grad_of. rewrite Hfb. reflexivity.
  - cbn zeta. rewrite HP, HS. unfold adam_step.
    exact (adam_fold_member (lr opt) (opt_params opt) name _ _ Hnd Hin
             (params (final (forward_backward opt b w)), adam w) Hfb eq_refl).
Qed.

Lemma steps_of_default (w : world) (name : string) (p : param) :
  step_count (default (adam_init p) (adam w !! name)) = steps_of w name.
Proof. unfold steps_of. destruct (adam w !! name); reflexivity. Qed.

Lemma update_world_steps (opt : optimizer) (b : batch) (w : world) (name : string) :
  NoDup (opt_params opt) ->
  name ∈ opt_params opt ->
  trainable w name ->
  trainable (update_world opt b w) name /\
  steps_of (update_world opt b w) name = steps_of w name + 1.
Proof.
  intros Hnd Hin (p & Hp & Hr).
  destruct (update_world_member opt b w name p Hnd Hin Hp Hr) as (g & _ & HP & HS).
  split.
  - eexists. split; [exact HP | reflexivity].
  - rewrite (steps_of_default w name p) in HS.
    unfold steps_of at 1. rewrite HS. reflexivity.
Qed.

(** *** Passes and runs *)

Lemma pass_world_other (opt : optimizer) (name : string) (bs : list batch) :
  name ∉ opt_params opt ->
  forall w : world,
    data_of (pass_world opt w bs) name = data_of w name /\
    adam (pass_world opt w bs) !! name = adam w !! name.
Proof.
  intros Hnot. induction bs as [| b bs IH]; intros w; [split; reflexivity |].
  cbn [pass_world]. destruct (IH (update_world opt b w)) as [-> ->].
  apply update_world_other. exact Hnot.
Qed.

Lemma pass_world_steps (opt : optimizer) (name : string) (bs : list batch) :
  NoDup (opt_params opt) ->
  name ∈ opt_params opt ->
  forall w : world,
    trainable w name ->
    trainable (pass_world opt w bs) name /\
    steps_of (pass_world opt w bs) name = steps_of w name + Z.of_nat (length bs).
Proof.
  intros Hnd Hin. induction bs as [| b bs IH]; intros w Ht.
  - cbn [pass_world length]. split; [exact Ht | lia].
  - cbn [pass_world length].
    destruct (update_world_steps opt b w name Hnd Hin Ht) as [Ht' Hs'].
    destruct (IH _ Ht') as [Ht'' Hs'']. split; [exact Ht'' |]. lia.
Qed.

Lemma report_final (ld : loaders) (i : option Z) (v : Py.num) (c : counter) (w : world) :
  final (report ld i v c w) = w.
Proof.
  rewrite report_run. destruct i as [iv |]; [| reflexivity].
  destruct (Py.div_int v iv); [reflexivity |].
  destruct (accuracy c (testset_len ld)); reflexivity.
Qed.

Lemma run_epoch_final (opt : optimizer) (ld : loaders) (epoch : nat) (i : option Z)
    (w : world) :
  final (run_epoch opt ld epoch i w) = validated opt ld epoch w.
Proof.
  pose proof (run_epoch_run opt ld epoch i w) as H. cbn zeta in H.
  rewrite H. cbn [final]. apply report_final.
Qed.

Lemma run_epoch_other (opt : optimizer) (ld : loaders) (epoch : nat) (i : option Z)
    (w : world) (name : string) :
  name ∉ opt_params opt ->
  data_of (final (run_epoch opt ld epoch i w)) name = data_of w name /\
  adam (final (run_epoch opt ld epoch i w)) !! name = adam w !! name.
Proof.
  intros Hnot. rewrite run_epoch_final. unfold validated, trained, data_of.
  cbn [params adam].
  exact (pass_world_other opt name (trainloader ld epoch) Hnot
           (World (set_mode true (model w)) (params w) (adam w) (rng w))).
Qed.

Lemma run_epochs_other (opt : optimizer) (ld : loaders) (name : string)
    (epochs : list nat) :
  name ∉ opt_params opt ->
  forall (i : option Z) (w : world),
    data_of (final (run_epochs opt ld epochs i w)) name = data_of w name /\
    adam (final (run_epochs opt ld epochs i w)) !! name = adam w !! name.
Proof.
  intros Hnot. induction epochs as [| e epochs IH]; intros i w; [split; reflexivity |].
  cbn [run_epochs]. unfold bind.
  destruct (run_epoch_other opt ld e i w name Hnot) as [Hd Ha].
  destruct (result (run_epoch opt ld e i w)) as [err | i']; cbn [final].
  - split; assumption.
  - destruct (IH i' (final (run_epoch opt ld e i w))) as [-> ->].
    split; assumption.
Qed.

Lemma train_other (opt : optimizer) (ld : loaders) (num_epochs : nat) (w : world)
    (name : string) :
  name ∉ opt_params opt ->
  data_of (final (train opt ld num_epochs w)) name = data_of w name /\
  adam (final (train opt ld num_epochs w)) !! name = adam w !! name.
Proof.
  intros Hnot. unfold train, bind.
  destruct (run_epochs_other opt ld name (seq 0 num_epochs) Hnot None w) as [Hd Ha].
  destruct (result (run_epochs opt ld (seq 0 num_epochs) None w)); cbn [final];
    split; assumption.
Qed.

(** *** The fine-tuned set-up *)

Lemma fineTune_params_NoDup : NoDup (opt_params fineTune_optimizer).
Proof. apply (bool_decide_unpack _). vm_compute. exact I. Qed.

Lemma features_not_dense (name : string) :
  In name (features_params TransferNet) -> name ∉ opt_params fineTune_optimizer.
Proof.
  assert (H : Forall (fun n => n ∉ opt_params fineTune_optimizer)
                     (features_params TransferNet)).
  { apply (bool_decide_unpack _). vm_compute. exact I. }
  intros Hin. apply list_elem_of_In in Hin.
  exact (proj1 (Forall_forall _ _) H name Hin).
Qed.

Lemma named_params_lookup (init : string -> tensor) (names : list string)
    (name : string) :
  In name names ->
  (list_to_map (map (fun k => (k, nn_Parameter (init k))) names) : gmap string param)
    !! name = Some (nn_Parameter (init name)).
Proof.
  induction names as [| k names IH]; intros Hin; [destruct Hin |].
  cbn [map list_to_map foldr].
  destruct (decide (k = name)) as [-> | Hk].
  - apply lookup_insert_eq.
  - rewrite lookup_insert_ne by exact Hk.
    destruct Hin as [Heq | Hin]; [congruence | apply IH; exact Hin].
Qed.

Lemma fresh_params_lookup (n : net) (init : string -> tensor) (name : string) :
  In name (parameters n) ->
  fresh_params n init !! name = Some (nn_Parameter (init name)).
Proof. apply named_params_lookup. Qed.

(** C2 (as the code has it).  In the fine-tuned set-up, after
    [optimizer.zero_grad()] and one forward and backward pass, every
    parameter that requires a gradient has one, the pretrained ones
    included: a dense-layer parameter holds the gradient of this pass, added
    to its zeroed accumulator; a pretrained parameter, which the optimizer
    does not own and [zero_grad] does not clear, holds the gradient of this
    pass added to whatever it held before. *)
Theorem forward_backward_gradients (b : batch) (w : world) (dname fname : string)
    (pd pf : param) :
  In dname (dense_params TransferNet) ->
  In fname (features_params TransferNet) ->
  params w !! dname = Some pd -> requires_grad pd = true ->
  params w !! fname = Some pf -> requires_grad pf = true ->
  grad_of (final (forward_backward fineTune_optimizer b w)) dname =
    Some (match grad pd with
          | None => fresh_gradient fineTune_optimizer b w dname
          | Some old => t_add (zeros_like old) (fresh_gradient fineTune_optimizer b w dname)
          end) /\
  grad_of (final (forward_backward fineTune_optimizer b w)) fname =
    Some (match grad pf with
          | None => fresh_gradient fineTune_optimizer b w fname
          | Some old => t_add old (fresh_gradient fineTune_optimizer b w fname)
          end).
Proof.
  intros Hd Hf Hpd Hrd Hpf Hrf. unfold grad_of. split.
  - rewrite (forward_backward_grad _ b w dname pd fineTune_params_NoDup Hpd Hrd).
    rewrite bool_decide_eq_true_2 by (apply list_elem_of_In; exact Hd).
    cbn. destruct (grad pd); reflexivity.
  - rewrite (forward_backward_grad _ b w fname pf fineTune_params_NoDup Hpf Hrf).
    rewrite bool_decide_eq_false_2 by (apply features_not_dense; exact Hf).
    cbn. reflexivity.
Qed.

(** In the model as constructed, this covers every parameter: after the
    first forward and backward pass each of them holds a gradient. *)
Lemma fresh_fineTune_gradients (init : string -> tensor) (r : rngstate) (b : batch)
    (name : string) :
  In name (parameters TransferNet) ->
  grad_of (final (forward_backward fineTune_optimizer b (fresh_world TransferNet init r)))
          name
  = Some (fresh_gradient fineTune_optimizer b (fresh_world TransferNet init r) name).
Proof.
  intros Hin. unfold grad_of.
  assert (Hp : params (fresh_world TransferNet init r) !! name
               = Some (nn_Parameter (init name)))
    by (apply fresh_params_lookup; exact Hin).
  rewrite (forward_backward_grad _ b _ name _ fineTune_params_NoDup Hp eq_refl).
  destruct (bool_decide (name ∈ opt_params fineTune_optimizer)); reflexivity.
Qed.

(** C3.  In the fine-tuned set-up a pretrained parameter keeps its value
    through a whole run of [train], whatever its outcome, and never gets
    optimizer state.  Every training iteration applies Adam's rule to every
    dense-layer parameter: its step counter goes up by one and its value
    becomes the one the rule gives from its previous value and its new
    gradient; over a training pass the counter goes up by the number of
    batches. *)
Theorem fineTune_frozen_and_trained (ld : loaders) (num_epochs : nat) (epoch : Z)
    (bs : list batch) (i : option Z) (b : batch) (w : world) (fname dname : string)
    (p : param) :
  In fname (features_params TransferNet) ->
  In dname (dense_params TransferNet) ->
  params w !! dname = Some p ->
  requires_grad p = true ->
  (data_of (final (train fineTune_optimizer ld num_epochs w)) fname = data_of w fname /\
   adam (final (train fineTune_optimizer ld num_epochs w)) !! fname = adam w !! fname) /\
  (exists g,
      grad_of (final (forward_backward fineTune_optimizer b w)) dname = Some g /\
      data_of (update_world fineTune_optimizer b w) dname =
        Some (adam_update (lr fineTune_optimizer) (steps_of w dname + 1)
                (exp_avg (default (adam_init p) (adam w !! dname)))
                (exp_avg_sq (default (adam_init p) (adam w !! dname)))
                (data p) g).1.1 /\
      steps_of (update_world fineTune_optimizer b w) dname = steps_of w dname + 1) /\
  steps_of (final (train_pass fineTune_optimizer epoch bs i w)) dname =
    steps_of w dname + Z.of_nat (length bs).
Proof.
  intros Hf Hd Hp Hr.
  assert (Hin : dname ∈ opt_params fineTune_optimizer)
    by (apply list_elem_of_In; exact Hd).
  split; [| split].
  - apply train_other, features_not_dense, Hf.
  - destruct (update_world_member _ b w dname p fineTune_params_NoDup Hin Hp Hr)
      as (g & Hg & HP & HS). cbn zeta in HP, HS.
    rewrite (steps_of_default w dname p) in HP, HS.
    exists g. split; [exact Hg |]. split.
    + unfold data_of. rewrite HP. reflexivity.
    + unfold steps_of at 1. rewrite HS. reflexivity.
  - pose proof (train_pass_run fineTune_optimizer epoch bs i w) as Hrun.
    cbn zeta in Hrun. rewrite Hrun. cbn [final].
    assert (Ht : trainable (World (set_mode true (model w)) (params w) (adam w) (rng w))
                           dname) by (exists p; split; assumption).
    destruct (pass_world_steps _ dname bs fineTune_params_NoDup Hin _ Ht) as [_ ->].
    reflexivity.
Qed.

End Parameters.

(** *** Runs of the fine-tuned set-up on the executable framework *)

(** C2 (as the specification has it) fails: the first pretrained weight has
    no gradient in the fresh model and has one after a single forward and
    backward pass; after two training iterations it holds the sum of two
    gradients, where a dense-layer weight holds one. *)
Lemma frozen_gradients_are_computed :
  In "pretrained_layers.0.weight"%string (features_params TransferNet) /\
  grad_of Toy.fineTune "pretrained_layers.0.weight" = None /\
  grad_of (final (forward_backward fineTune_optimizer (Toy.batch_of 1 0) Toy.fineTune))
          "pretrained_layers.0.weight" = Some 1%float /\
  grad_of (pass_world fineTune_optimizer Toy.fineTune
             [Toy.batch_of 1 0; Toy.batch_of 1 0])
          "pretrained_layers.0.weight" = Some 2%float /\
  grad_of (pass_world fineTune_optimizer Toy.fineTune
             [Toy.batch_of 1 0; Toy.batch_of 1 0])
          "dense.1.weight" = Some 1%float.
Proof.
  split; [left; reflexivity |].
  vm_compute. repeat split.
Qed.

Lemma forward_backward_gradients_witness :
  In "dense.1.weight"%string (dense_params TransferNet) /\
  In "pretrained_layers.0.weight"%string (features_params TransferNet) /\
  params Toy.fineTune !! "dense.1.weight"%string = Some (nn_Parameter 0.5%float) /\
  params Toy.fineTune !! "pretrained_layers.0.weight"%string
    = Some (nn_Parameter 0.5%float) /\
  grad_of (final (forward_backward fineTune_optimizer (Toy.batch_of 1 0) Toy.fineTune))
          "dense.1.weight"
    = Some (fresh_gradient fineTune_optimizer (Toy.batch_of 1 0) Toy.fineTune
              "dense.1.weight") /\
  grad_of (final (forward_backward fineTune_optimizer (Toy.batch_of 1 0) Toy.fineTune))
          "pretrained_layers.0.weight"
    = Some (fresh_gradient fineTune_optimizer (Toy.batch_of 1 0) Toy.fineTune
              "pretrained_layers.0.weight").
Proof.
  assert (Hd : In "dense.1.weight"%string (dense_params TransferNet))
    by (left; reflexivity).
  assert (Hf : In "pretrained_layers.0.weight"%string (features_params TransferNet))
    by (left; reflexivity).
  assert (Hpd : params Toy.fineTune !! "dense.1.weight"%string
                = Some (nn_Parameter 0.5%float)) by (vm_compute; reflexivity).
  assert (Hpf : params Toy.fineTune !! "pretrained_layers.0.weight"%string
                = Some (nn_Parameter 0.5%float)) by (vm_compute; reflexivity).
  split; [exact Hd |]. split; [exact Hf |]. split; [exact Hpd |]. split; [exact Hpf |].
  exact (forward_backward_gradients (TT := Toy.torch) (Toy.batch_of 1 0) Toy.fineTune
           "dense.1.weight" "pretrained_layers.0.weight"
           (nn_Parameter 0.5%float) (nn_Parameter 0.5%float)
           Hd Hf Hpd eq_refl Hpf eq_refl).
Defined.

Lemma fineTune_frozen_and_trained_witness :
  In "pretrained_layers.0.weight"%string (features_params TransferNet) /\
  In "dense.1.weight"%string (dense_params TransferNet) /\
  params Toy.fineTune !! "dense.1.weight"%string = Some (nn_Parameter 0.5%float) /\
  data_of (final (train fineTune_optimizer Toy.two_validation_batches 1 Toy.fineTune))
          "pretrained_layers.0.weight"
    = data_of Toy.fineTune "pretrained_layers.0.weight" /\
  steps_of (final (train_pass fineTune_optimizer 0
                     [Toy.batch_of 1 0; Toy.batch_of 2 0] None Toy.fineTune))
           "dense.1.weight"
    = steps_of Toy.fineTune "dense.1.weight" + Z.of_nat 2.
Proof.
  assert (Hf : In "pretrained_layers.0.weight"%string (features_params TransferNet))
    by (left; reflexivity).
  assert (Hd : In "dense.1.weight"%string (dense_params TransferNet))
    by (left; reflexivity).
  assert (Hp : params Toy.fineTune !! "dense.1.weight"%string
               = Some (nn_Parameter 0.5%float)) by (vm_compute; reflexivity).
  split; [exact Hf |]. split; [exact Hd |]. split; [exact Hp |].
  pose proof (fineTune_frozen_and_trained (TT := Toy.torch)
                Toy.two_validation_batches 1 0 [Toy.batch_of 1 0; Toy.batch_of 2 0]
                None (Toy.batch_of 1 0) Toy.fineTune
                "pretrained_layers.0.weight" "dense.1.weight"
                (@nn_Parameter Toy.torch 0.5%float) Hf Hd Hp eq_refl) as H.
  split; [exact (proj1 (proj1 H)) | exact (proj2 (proj2 H))].
Defined.

Example toy_baseline_one_window :
  printed (train Net_Seq_optimizer Toy.one_window 2 Toy.baseline) =
  ["| epoch: 1 |   4*  200 images | loss = 2.000";
   nl +:+ " | Test loss = 3.000 | Test accuracy = 50% " +:+ nl;
   "| epoch: 2 |   4*  200 images | loss = 2.000";
   nl +:+ " | Test loss = 3.000 | Test accuracy = 50% " +:+ nl]%string.
Proof. vm_compute. reflexivity. Qed.

Example toy_steps_after_pass :
  steps_of (final (train_pass fineTune_optimizer 0
                     [Toy.batch_of 1 0; Toy.batch_of 2 0] None Toy.fineTune))
           "dense.1.weight" = 2 /\
  data_of (final (train_pass fineTune_optimizer 0
                     [Toy.batch_of 1 0; Toy.batch_of 2 0] None Toy.fineTune))
          "pretrained_layers.0.weight" = Some 0.5%float.
Proof. vm_compute. split; reflexivity. Qed.

(** * Further properties *)

(** ** The plotting helper *)

Lemma grid_rows_bounds (n cols : Z) :
  0 < cols ->
  exists r, Plot.grid_rows n cols = inr r /\ (r - 1) * cols < n <= r * cols.
Proof.
  intros Hc. unfold Plot.grid_rows.
  destruct (Z.eqb_spec cols 0) as [-> | _]; [lia |].
  pose proof (Z.div_mod n cols ltac:(lia)) as Hdm.
  pose proof (Z.mod_pos_bound n cols Hc) as Hm.
  destruct (Z.eqb_spec (n mod cols) 0) as [H0 | Hne]; eexists; (split; [reflexivity |]); nia.
Qed.

Lemma draw_indices {A : Type} (titles : option (list string)) (ims : list A) :
  forall i : nat,
    Forall (fun sp => Z.of_nat i + 1 <= Plot.sp_index sp <= Z.of_nat i + Z.of_nat (length ims))
           (Plot.draw titles i ims).1.
Proof.
  induction ims as [| im ims IH]; intros i; [constructor |].
  cbn [Plot.draw length].
  assert (Htail : Forall (fun sp => Z.of_nat i + 1 <= Plot.sp_index sp
                                    <= Z.of_nat i + Z.of_nat (S (length ims)))
                         (Plot.draw titles (S i) ims).1).
  { eapply Forall_impl; [apply (IH (S i)) |]. cbn beta. intros sp Hsp. lia. }
  destruct titles as [ts |].
  - destruct (Plot.title_at ts i) as [e | t].
    + cbn [fst]. constructor; [cbn; lia | constructor].
    + destruct (Plot.draw (Some ts) (S i) ims) as [rest e]. cbn [fst] in *.
      constructor; [cbn; lia | exact Htail].
  - destruct (Plot.draw None (S i) ims) as [rest e]. cbn [fst] in *.
    constructor; [cbn; lia | exact Htail].
Qed.

(** X1.  For a positive number of columns, [plots_ims] makes a figure whose
    number of rows is the ceiling of the number of images over the number of
    columns: the grid holds every image and its last row is not empty, and
    every subplot is added at a position of the grid. *)
Theorem plots_ims_grid {A : Type} (unnormal : A -> A) (ims : list A) (cols : Z)
    (titles : option (list string)) :
  0 < cols ->
  exists fig,
    (Plot.plots_ims unnormal ims cols titles).1 = Some fig /\
    Plot.fig_cols fig = cols /\
    (Plot.fig_rows fig - 1) * cols < Z.of_nat (length ims) <= Plot.fig_rows fig * cols /\
    Forall (fun sp => 1 <= Plot.sp_index sp <= Plot.fig_rows fig * Plot.fig_cols fig)
           (Plot.fig_axes fig).
Proof.
  intros Hc. unfold Plot.plots_ims.
  destruct (grid_rows_bounds (Z.of_nat (length ims)) cols Hc) as (r & -> & Hr).
  pose proof (draw_indices titles (map unnormal ims) 0) as Hidx.
  destruct (Plot.draw titles 0 (map unnormal ims)) as [axes e]. cbn [fst] in *.
  eexists. split; [reflexivity |]. cbn [Plot.fig_cols Plot.fig_rows Plot.fig_axes].
  split; [reflexivity |]. split; [exact Hr |].
  eapply Forall_impl; [exact Hidx |]. cbn beta. intros sp Hsp.
  rewrite length_map in Hsp. lia.
Qed.

Lemma plots_ims_grid_witness :
  0 < 5 /\
  exists fig,
    (Plot.plots_ims (fun x : Z => x) [10; 20; 30; 40; 50; 60; 70] 5 None).1 = Some fig /\
    Plot.fig_rows fig = 2.
Proof.
  split; [lia |].
  destruct (plots_ims_grid (fun x : Z => x) [10; 20; 30; 40; 50; 60; 70] 5 None
              ltac:(lia)) as (fig & Hfig & _ & Hrows & _).
  exists fig. split; [exact Hfig |]. cbn [length] in Hrows. lia.
Defined.

Lemma draw_outcome {A : Type} (ts : list string) (ims : list A) :
  forall i : nat,
    (Plot.draw (Some ts) i ims).2 =
      (if (length ts - i <? length ims)%nat then Some Plot.IndexError else None) /\
    length (Plot.draw (Some ts) i ims).1 = (length ims `min` (length ts - i + 1))%nat.
Proof.
  induction ims as [| im ims IH]; intros i.
  - cbn [Plot.draw length snd fst]. split; [| reflexivity].
    destruct (Nat.ltb_spec (length ts - i) 0); [lia | reflexivity].
  - cbn [Plot.draw length]. unfold Plot.title_at.
    destruct (ts !! i) as [t |] eqn:Hl.
    + apply lookup_lt_Some in Hl.
      destruct (IH (S i)) as [He Hn].
      destruct (Plot.draw (Some ts) (S i) ims) as [rest e]. cbn [fst snd length] in *.
      rewrite He, Hn. split.
      * destruct (Nat.ltb_spec (length ts - S i) (length ims));
          destruct (Nat.ltb_spec (length ts - i) (S (length ims)));
          first [reflexivity | lia].
      * lia.
    + apply lookup_ge_None in Hl. cbn [fst snd length]. split.
      * destruct (Nat.ltb_spec (length ts - i) (S (length ims))); [reflexivity | lia].
      * lia.
Qed.



(** ** Shapes on other inputs *)

Lemma view_shape_form (n : Z) (s out : shape) :
  view_shape n s = Some out -> out = [numel s / n; n].
Proof.
  unfold view_shape. destruct ((0 <? n) && (numel s mod n =? 0)); congruence.
Qed.

Lemma Net_Seq_dense_shape (k : Z) :
  layers_shape (seq_layers (dense Net_Seq)) [k; flat Net_Seq] = Some [k; 10].
Proof. reflexivity. Qed.

Lemma TransferNet_dense_shape (k : Z) :
  layers_shape (seq_layers (dense TransferNet)) [k; flat TransferNet] = Some [k; 10].
Proof. reflexivity. Qed.

(** X3.  Whatever the shape of the input, when the forward pass of either
    network goes through, its output has two dimensions and the second is
    the number of classes, 10. *)
Theorem forward_shape_classes (s out : shape) :
  forward_shape Net_Seq s = Some out \/ forward_shape TransferNet s = Some out ->
  exists k, out = [k; 10].
Proof.
  unfold forward_shape. intros [H | H].
  - destruct (layers_shape (seq_layers (features Net_Seq)) s) as [s1 |]; [| discriminate].
    destruct (view_shape (flat Net_Seq) s1) as [s2 |] eqn:Hv; [| discriminate].
    apply view_shape_form in Hv. subst s2.
    rewrite Net_Seq_dense_shape in H. injection H as <-. eexists. reflexivity.
  - destruct (layers_shape (seq_layers (features TransferNet)) s) as [s1 |];
      [| discriminate].
    destruct (view_shape (flat TransferNet) s1) as [s2 |] eqn:Hv; [| discriminate].
    apply view_shape_form in Hv. subst s2.
    rewrite TransferNet_dense_shape in H. injection H as <-. eexists. reflexivity.
Qed.

Lemma forward_shape_classes_witness :
  forward_shape Net_Seq [2; 3; 224; 224] = Some [2; 10] /\
  exists k, [2; 10] = [k; 10].
Proof.
  assert (H : forward_shape Net_Seq [2; 3; 224; 224] = Some [2; 10]) by reflexivity.
  split; [exact H |].
  exact (forward_shape_classes [2; 3; 224; 224] [2; 10] (or_introl H)).
Defined.

(** X4.  [Net_Seq] flattens with [view(-1, 64 * 26 * 26)], so a spatial
    size other than the expected one is not always rejected: when the
    convolutions turn the input into [B] maps of size [h] by [w], the
    forward pass goes through exactly when 676 divides [B * h * w], and its
    output then has [B * h * w / 676] rows instead of [B]. *)
Theorem Net_Seq_view_regroups (B H W h w : Z) :
  layers_shape (seq_layers (features Net_Seq)) [B; 3; H; W] = Some [B; 64; h; w] ->
  forward_shape Net_Seq [B; 3; H; W] =
    if (B * h * w) mod 676 =? 0 then Some [B * h * w / 676; 10] else None.
Proof.
  intros Hf. unfold forward_shape. rewrite Hf. unfold view_shape, numel.
  cbn [fold_right].
  change (flat Net_Seq) with (64 * 676).
  replace (B * (64 * (h * (w * 1)))) with (64 * (B * h * w)) by ring.
  rewrite Z.mul_mod_distr_l, Z.div_mul_cancel_l by lia.
  change (0 <? 64 * 676) with true. cbn [andb].
  destruct (Z.eqb_spec ((B * h * w) mod 676) 0) as [H0 | Hne].
  - rewrite H0. cbn [Z.mul Z.eqb]. apply Net_Seq_dense_shape.
  - destruct (Z.eqb_spec (64 * ((B * h * w) mod 676)) 0); [lia | reflexivity].
Qed.

Lemma Net_Seq_view_regroups_witness :
  layers_shape (seq_layers (features Net_Seq)) [1; 3; 430; 430] = Some [1; 64; 52; 52] /\
  forward_shape Net_Seq [1; 3; 430; 430] = Some [4; 10].
Proof.
  assert (H : layers_shape (seq_layers (features Net_Seq)) [1; 3; 430; 430]
              = Some [1; 64; 52; 52]) by reflexivity.
  split; [exact H |].
  exact (Net_Seq_view_regroups 1 430 430 52 52 H).
Defined.

(** ** Indexing the class names *)

Lemma title_at_ok (a : list string) (i : nat) :
  (i < length a)%nat -> exists t, Plot.title_at a i = inr t /\ In t a.
Proof.
  intros Hi. unfold Plot.title_at.
  destruct (lookup_lt_is_Some_2 a i Hi) as [t Ht]. rewrite Ht.
  exists t. split; [reflexivity |].
  apply list_elem_of_In, list_elem_of_lookup. exists i. exact Ht.
Qed.

Lemma np_item_in_range (a : list string) (k : Z) :
  - Z.of_nat (length a) <= k < Z.of_nat (length a) ->
  exists t, Plot.np_item a k = inr t /\ In t a.
Proof.
  intros Hk. unfold Plot.np_item. cbn zeta.
  destruct (Z.leb_spec 0 k); destruct (Z.ltb_spec k (Z.of_nat (length a)));
    cbn [andb]; try lia.
  - apply title_at_ok. lia.
  - destruct (Z.leb_spec (- Z.of_nat (length a)) k); destruct (Z.ltb_spec k 0);
      cbn [andb]; try lia.
    apply title_at_ok. lia.
Qed.

Lemma np_item_out_of_range (a : list string) (k : Z) :
  ~ (- Z.of_nat (length a) <= k < Z.of_nat (length a)) ->
  Plot.np_item a k = inl Plot.IndexError.
Proof.
  intros Hk. unfold Plot.np_item. cbn zeta.
  destruct (Z.leb_spec 0 k); destruct (Z.ltb_spec k (Z.of_nat (length a)));
    cbn [andb]; try lia;
    destruct (Z.leb_spec (- Z.of_nat (length a)) k); destruct (Z.ltb_spec k 0);
    cbn [andb]; try lia; reflexivity.
Qed.

Lemma np_take_ok (a : list string) (idx : list Z) :
  Forall (fun k => - Z.of_nat (length a) <= k < Z.of_nat (length a)) idx ->
  exists ts, Plot.np_take a idx = inr ts /\ length ts = length idx /\
             Forall (fun t => In t a) ts.
Proof.
  induction idx as [| k idx IH]; intros H.
  - exists []. repeat split. constructor.
  - apply Forall_cons in H as [Hk Hrest].
    destruct (np_item_in_range a k Hk) as (t & Ht & Hin).
    destruct (IH Hrest) as (ts & Hts & Hlen & Hall).
    exists (t :: ts). cbn [Plot.np_take]. rewrite Ht, Hts.
    repeat split; [cbn [length]; lia | constructor; assumption].
Qed.

Lemma np_take_bad (a : list string) (idx : list Z) :
  ~ Forall (fun k => - Z.of_nat (length a) <= k < Z.of_nat (length a)) idx ->
  Plot.np_take a idx = inl Plot.IndexError.
Proof.
  induction idx as [| k idx IH]; intros H.
  - exfalso. apply H. constructor.
  - cbn [Plot.np_take].
    destruct (decide (- Z.of_nat (length a) <= k < Z.of_nat (length a))) as [Hk | Hk].
    + destruct (np_item_in_range a k Hk) as (t & -> & _).
      rewrite IH; [reflexivity |].
      intros Hrest. apply H. constructor; assumption.
    + rewrite (np_item_out_of_range a k Hk). reflexivity.
Qed.

(** X5.  Indexing an array of names with an array of ints, as both plotting
    cells do with [classes], succeeds exactly when every index lies between
    minus the length (included) and the length (excluded); it then gives one
    name of the array per index, and otherwise an [IndexError]. *)
Theorem np_take_in_range (a : list string) (idx : list Z) :
  (Forall (fun k => - Z.of_nat (length a) <= k < Z.of_nat (length a)) idx ->
   exists ts, Plot.np_take a idx = inr ts /\ length ts = length idx /\
              Forall (fun t => In t a) ts) /\
  (~ Forall (fun k => - Z.of_nat (length a) <= k < Z.of_nat (length a)) idx ->
   Plot.np_take a idx = inl Plot.IndexError).
Proof.
  split.
  - apply np_take_ok.
  - apply np_take_bad.
Qed.

Lemma np_take_in_range_witness :
  Forall (fun k => - Z.of_nat (length Plot.classes) <= k < Z.of_nat (length Plot.classes))
         [3; 0; 9] /\
  Plot.np_take Plot.classes [3; 0; 9] = inr ["cat"; "plane"; "truck"]%string /\
  ~ Forall (fun k => - Z.of_nat (length Plot.classes) <= k < Z.of_nat (length Plot.classes))
           [3; 10] /\
  Plot.np_take Plot.classes [3; 10] = inl Plot.IndexError.
Proof.
  assert (Hok : Forall (fun k => - Z.of_nat (length Plot.classes) <= k
                                 < Z.of_nat (length Plot.classes)) [3; 0; 9]).
  { repeat constructor; cbn; lia. }
  assert (Hbad : ~ Forall (fun k => - Z.of_nat (length Plot.classes) <= k
                                    < Z.of_nat (length Plot.classes)) [3; 10]).
  { intros H. apply Forall_cons in H as [_ H]. apply Forall_cons in H as [H _].
    cbn in H. lia. }
  split; [exact Hok |].
  split; [reflexivity |].
  split; [exact Hbad |].
  exact (proj2 (np_take_in_range Plot.classes [3; 10]) Hbad).
Defined.

(** ** The validation metrics *)

Section Metrics.

Context {TT : Torch}.

Lemma count_eq_bounds (preds labels : list Z) :
  0 <= count_eq preds labels <= Z.of_nat (length labels).
Proof.
  revert labels. induction preds as [| p preds IH]; intros labels.
  - cbn [count_eq]. lia.
  - destruct labels as [| l labels]; cbn [count_eq length]; [lia |].
    specialize (IH labels). destruct (p =? l); lia.
Qed.

Lemma total_hits_value (w : world) (bs : list batch) :
  forall c : counter,
    counter_value (total_hits w bs c) =
    counter_value c + fold_right (fun b n => eval_hits w b + n) 0 bs.
Proof.
  unfold total_hits. induction bs as [| b bs IH]; intros c.
  - cbn [fold_left fold_right]. lia.
  - cbn [fold_left fold_right]. rewrite IH. cbn [counter_add counter_value]. lia.
Qed.

(** X6.  The number of correct predictions that the validation pass counts
    is never negative and never exceeds the number of validation examples
    it has seen, so the ratio behind the reported accuracy lies between 0
    and 1 when [len(testloader.dataset)] is that number. *)
Theorem total_hits_bounds (w : world) (bs : list batch) :
  0 <= counter_value (total_hits w bs (CInt 0)) <= examples bs.
Proof.
  rewrite total_hits_value. cbn [counter_value]. unfold examples.
  induction bs as [| b bs IH]; cbn [fold_right]; [lia |].
  assert (Hb : 0 <= eval_hits w b <= Z.of_nat (length (class_ids b)))
    by apply count_eq_bounds.
  lia.
Qed.

(** X7.  The count of correct predictions does not depend on the order in
    which the validation loader yields its batches (the loader shuffles).
    The loss total is a floating-point sum and has no such property. *)
Theorem total_hits_permutation (w : world) (bs bs' : list batch) (c : counter) :
  Permutation bs bs' ->
  counter_value (total_hits w bs c) = counter_value (total_hits w bs' c).
Proof.
  intros Hp. rewrite !total_hits_value. f_equal.
  induction Hp as [| b l l' _ IH | a b l | l1 l2 l3 _ IH1 _ IH2]; cbn [fold_right]; lia.
Qed.

End Metrics.

Lemma total_hits_permutation_witness :
  Permutation [Toy.batch_of 1 1; Toy.batch_of 2 0] [Toy.batch_of 2 0; Toy.batch_of 1 1] /\
  counter_value (total_hits Toy.fineTune [Toy.batch_of 1 1; Toy.batch_of 2 0] (CInt 0)) =
  counter_value (total_hits Toy.fineTune [Toy.batch_of 2 0; Toy.batch_of 1 1] (CInt 0)).
Proof.
  assert (Hp : Permutation [Toy.batch_of 1 1; Toy.batch_of 2 0]
                           [Toy.batch_of 2 0; Toy.batch_of 1 1]) by apply perm_swap.
  split; [exact Hp |].
  exact (total_hits_permutation (TT := Toy.torch) Toy.fineTune _ _ (CInt 0) Hp).
Defined.

(** ** Runs of [train] *)

Section Runs.

Context {TT : Torch}.

Lemma seq_set_mode_switch (m1 m2 : bool) (s : sequential) :
  seq_set_mode m1 (seq_set_mode m2 s) = seq_set_mode m1 s.
Proof.
  unfold seq_set_mode. cbn [seq_items]. f_equal. rewrite map_map. reflexivity.
Qed.

Lemma set_mode_switch (m1 m2 : bool) (n : net) :
  set_mode m1 (set_mode m2 n) = set_mode m1 n.
Proof.
  unfold set_mode. cbn [net_training features_name features flat dense].
  rewrite !seq_set_mode_switch. reflexivity.
Qed.

Lemma update_world_model (opt : optimizer) (b : batch) (w : world) :
  model (update_world opt b w) = model w.
Proof.
  rewrite update_world_eq. cbn zeta. rewrite forward_backward_run. reflexivity.
Qed.

Lemma pass_world_model (opt : optimizer) (bs : list batch) :
  forall w : world, model (pass_world opt w bs) = model w.
Proof.
  induction bs as [| b bs IH]; intros w; [reflexivity |].
  cbn [pass_world]. rewrite IH. apply update_world_model.
Qed.

Lemma validated_model (opt : optimizer) (ld : loaders) (epoch : nat) (w : world) :
  model (validated opt ld epoch w) = set_mode false (model w).
Proof.
  unfold validated, trained. cbn [model]. rewrite pass_world_model. cbn [model].
  apply set_mode_switch.
Qed.

Lemma run_epochs_model (opt : optimizer) (ld : loaders) (epochs : list nat) :
  epochs <> [] ->
  forall (i : option Z) (w : world),
    model (final (run_epochs opt ld epochs i w)) = set_mode false (model w).
Proof.
  induction epochs as [| e epochs IH]; intros Hne i w; [congruence |].
  cbn [run_epochs]. unfold bind.
  pose proof (run_epoch_final opt ld e i w) as Hfin.
  destruct (result (run_epoch opt ld e i w)) as [err | i']; cbn [final].
  - rewrite Hfin. apply validated_model.
  - destruct epochs as [| e' epochs'].
    + cbn [run_epochs]. unfold ret. cbn [final]. rewrite Hfin. apply validated_model.
    + rewrite IH by discriminate. rewrite Hfin, validated_model.
      apply set_mode_idem.
Qed.

Lemma train_model (opt : optimizer) (ld : loaders) (num_epochs : nat) (w : world) :
  (0 < num_epochs)%nat ->
  model (final (train opt ld num_epochs w)) = set_mode false (model w).
Proof.
  intros Hn. unfold train, bind.
  assert (Hm : model (final (run_epochs opt ld (seq 0 num_epochs) None w))
               = set_mode false (model w)).
  { apply run_epochs_model. destruct num_epochs; [lia | discriminate]. }
  destruct (result (run_epochs opt ld (seq 0 num_epochs) None w)); cbn [final]; exact Hm.
Qed.

(** X8.  After [train] has run at least one epoch, the model is in
    evaluation mode, whether the run returned or raised: the last thing that
    touched the flags is the [model.eval()] of the last epoch started. *)
Theorem train_leaves_eval_mode (opt : optimizer) (ld : loaders) (num_epochs : nat)
    (w : world) :
  (0 < num_epochs)%nat ->
  model (final (train opt ld num_epochs w)) = set_mode false (model w) /\
  Forall (fun m => l_training m = false)
         (seq_items (dense (model (final (train opt ld num_epochs w))))).
Proof.
  intros Hn. rewrite (train_model opt ld num_epochs w Hn). split; [reflexivity |].
  unfold set_mode, seq_set_mode. cbn [dense seq_items].
  apply Forall_forall. intros m Hin.
  apply list_elem_of_In, in_map_iff in Hin. destruct Hin as (m0 & <- & _). reflexivity.
Qed.

End Runs.

Lemma train_leaves_eval_mode_witness :
  (0 < 1)%nat /\
  model (final (train fineTune_optimizer Toy.one_validation_batch 1 Toy.fineTune))
    = set_mode false TransferNet.
Proof.
  split; [lia |].
  exact (proj1 (train_leaves_eval_mode (TT := Toy.torch) fineTune_optimizer
                  Toy.one_validation_batch 1 Toy.fineTune ltac:(lia))).
Defined.

(** ** Epochs that succeed and epochs that fail *)

Section Outcomes.

Context {TT : Torch}.

Lemma total_hits_tensor (w : world) (bs : list batch) :
  forall c : counter, bs <> [] -> exists z, total_hits w bs c = CTensor z.
Proof.
  induction bs as [| b bs IH]; intros c Hne; [congruence |].
  unfold total_hits. cbn [fold_left].
  destruct bs as [| b' bs'].
  - eexists. reflexivity.
  - apply (IH (counter_add c (eval_hits w b))). discriminate.
Qed.

Lemma training_lines_length (opt : optimizer) (ld : loaders) (epoch : nat) (w : world) :
  length (training_lines opt ld epoch w) =
  (length (trainloader ld epoch) / report_every)%nat.
Proof.
  unfold training_lines, window_lines.
  rewrite length_map, length_seq, pass_losses_length. reflexivity.
Qed.

(** An epoch whose validation loader yields at least two batches. *)
Lemma run_epoch_ok (opt : optimizer) (ld : loaders) (epoch : nat) (i : option Z)
    (w : world) :
  (2 <= length (testloader ld epoch))%nat ->
  exists v a,
    run_epoch opt ld epoch i w =
    Outcome (inr (Some (Z.of_nat (length (testloader ld epoch)) - 1)))
            (validated opt ld epoch w)
            (training_lines opt ld epoch w ++ [test_line v a]).
Proof.
  intros Hlen.
  pose proof (run_epoch_run opt ld epoch i w) as Hrun. cbn zeta in Hrun.
  rewrite report_run in Hrun.
  assert (Hne : testloader ld epoch <> []).
  { intros E. rewrite E in Hlen. cbn in Hlen. lia. }
  assert (Hi : index_at_report ld epoch i
               = Some (Z.of_nat (length (testloader ld epoch)) - 1)).
  { unfold index_at_report.
    destruct (length (testloader ld epoch)) as [| k]; [lia |].
    cbn [loop_var]. f_equal. lia. }
  destruct (total_loss_float (trained opt ld epoch w) (testloader ld epoch) (Py.Int 0) Hne)
    as [x Hx].
  destruct (total_hits_tensor (trained opt ld epoch w) (testloader ld epoch) (CInt 0) Hne)
    as [z Hz].
  rewrite Hi, Hx, Hz in Hrun.
  cbn [Py.div_int accuracy] in Hrun. unfold Py.float_div_int in Hrun.
  destruct (Z.eqb_spec (Z.of_nat (length (testloader ld epoch)) - 1) 0) as [E | _];
    [lia |].
  cbn [result final printed] in Hrun.
  eexists _, _. exact Hrun.
Qed.

Lemma run_epochs_ok (opt : optimizer) (ld : loaders) (epochs : list nat) :
  Forall (fun e => (2 <= length (testloader ld e))%nat) epochs ->
  forall (i : option Z) (w : world),
    (exists i', result (run_epochs opt ld epochs i w) = inr i') /\
    length (printed (run_epochs opt ld epochs i w)) = lines_of_run ld epochs.
Proof.
  induction epochs as [| e epochs IH]; intros Hall i w.
  - split; [eexists; reflexivity | reflexivity].
  - apply Forall_cons in Hall as [He Hall].
    destruct (run_epoch_ok opt ld e i w He) as (v & a & Hrun).
    cbn [run_epochs lines_of_run].
    rewrite (bind_value _ _ _ _ _ _ Hrun). cbn [result printed].
    destruct (IH Hall (Some (Z.of_nat (length (testloader ld e)) - 1))
                 (validated opt ld e w)) as [Hr Hl].
    split; [exact Hr |].
    rewrite !length_app, Hl, training_lines_length. cbn [length]. lia.
Qed.

(** X9.  When the validation loader yields at least two batches in every
    epoch, [train] returns without an exception, and it has printed, for
    each epoch, one line per full window of 200 training batches and one
    epoch-end line. *)
Theorem train_succeeds (opt : optimizer) (ld : loaders) (num_epochs : nat) (w : world) :
  Forall (fun e => (2 <= length (testloader ld e))%nat) (seq 0 num_epochs) ->
  result (train opt ld num_epochs w) = inr tt /\
  length (printed (train opt ld num_epochs w)) = lines_of_run ld (seq 0 num_epochs).
Proof.
  intros Hall. unfold train.
  destruct (run_epochs_ok opt ld (seq 0 num_epochs) Hall None w) as [[i' Hr] Hl].
  unfold bind. rewrite Hr. unfold ret. cbn [result printed].
  rewrite app_nil_r. split; [reflexivity | exact Hl].
Qed.

(** X10.  When the validation loader of the first epoch yields one batch,
    the run stops with the error only after the whole training pass of that
    epoch: the world it leaves is the trained one, in evaluation mode, and
    what it has printed is the training lines of that epoch and no
    epoch-end line. *)
Theorem failed_epoch_keeps_training (opt : optimizer) (ld : loaders) (num_epochs : nat)
    (w : world) (b : batch) :
  (0 < num_epochs)%nat ->
  testloader ld 0 = [b] ->
  final (train opt ld num_epochs w) = validated opt ld 0 w /\
  printed (train opt ld num_epochs w) = training_lines opt ld 0 w.
Proof.
  intros Hn Hb.
  destruct num_epochs as [| m]; [lia |].
  unfold train. cbn [seq run_epochs].
  pose proof (run_epoch_run opt ld 0 None w) as Hrun. cbn zeta in Hrun.
  rewrite report_run in Hrun.
  assert (Hi : index_at_report ld 0 None = Some 0).
  { unfold index_at_report. rewrite Hb. reflexivity. }
  destruct (total_loss_float (trained opt ld 0 w) (testloader ld 0) (Py.Int 0))
    as [x Hx]; [rewrite Hb; discriminate |].
  rewrite Hi, Hx in Hrun. cbn [Py.div_int] in Hrun.
  change (Py.float_div_int x 0) with (@inl Py.exn float Py.ZeroDivisionError) in Hrun.
  cbn [result final printed] in Hrun. rewrite app_nil_r in Hrun.
  unfold bind. rewrite Hrun. cbn [result final printed]. split; reflexivity.
Qed.

End Outcomes.

Lemma train_succeeds_witness :
  Forall (fun e => (2 <= length (testloader Toy.one_window e))%nat) (seq 0 2) /\
  result (train fineTune_optimizer Toy.one_window 2 Toy.fineTune) = inr tt /\
  length (printed (train fineTune_optimizer Toy.one_window 2 Toy.fineTune)) = 4%nat.
Proof.
  assert (H : Forall (fun e => (2 <= length (testloader Toy.one_window e))%nat) (seq 0 2)).
  { repeat constructor. }
  split; [exact H |].
  exact (train_succeeds (TT := Toy.torch) fineTune_optimizer Toy.one_window 2
           Toy.fineTune H).
Defined.

Lemma failed_epoch_keeps_training_witness :
  (0 < 1)%nat /\
  testloader Toy.one_validation_batch 0 = [Toy.batch_of 1 1] /\
  printed (train fineTune_optimizer Toy.one_validation_batch 1 Toy.fineTune) = [] /\
  steps_of (final (train fineTune_optimizer Toy.one_validation_batch 1 Toy.fineTune))
           "dense.1.weight" = 1.
Proof.
  split; [lia |]. split; [reflexivity |].
  destruct (failed_epoch_keeps_training (TT := Toy.torch) fineTune_optimizer
              Toy.one_validation_batch 1 Toy.fineTune (Toy.batch_of 1 1)
              ltac:(lia) eq_refl) as [Hw Hp].
  split.
  - rewrite Hp. reflexivity.
  - rewrite Hw. vm_compute. reflexivity.
Defined.

(** ** The prediction cell *)

Section Prediction.

Context {TT : Torch}.

Variable images_of : tensor -> list tensor.
Variable unnormal : tensor -> tensor.

(** X11.  The last cell calls the model without [torch.no_grad()] and
    without setting a mode; run after [train] (of at least one epoch), it
    finds the model in evaluation mode, so its forward pass computes the
    evaluation logits and leaves the world, the random number generator
    included, as [train] left it.  When the arg-max gives one class index
    below 10 per image, the titles are found and the figure holds one
    subplot per image. *)
Theorem show_predictions_after_train (opt : optimizer) (ld : loaders) (num_epochs : nat)
    (w : world) (b : batch) :
  let wf := final (train opt ld num_epochs w) in
  (0 < num_epochs)%nat ->
  Forall (fun k => 0 <= k < 10) (max_index (eval_outputs wf b)) ->
  length (max_index (eval_outputs wf b)) = length (images_of (inputs b)) ->
  (show_predictions images_of unnormal b wf).1 = wf /\
  exists fig,
    (show_predictions images_of unnormal b wf).2 = inr (Some fig, None) /\
    length (Plot.fig_axes fig) = length (images_of (inputs b)).
Proof.
  cbn zeta. intros Hn Hrange Hlen.
  set (wf := final (train opt ld num_epochs w)) in *.
  assert (Hm : model wf = set_mode false (model w)) by (apply train_model; exact Hn).
  unfold show_predictions.
  pose proof (eval_outputs_eval (model w) wf b Hm) as Hout.
  destruct (forward_eval (model w) (params wf) (inputs b)) as [y Hy].
  rewrite Hm in Hout |- *. rewrite Hy in Hout |- *. cbn [fst snd] in *.
  rewrite <- Hm, world_eta. split; [reflexivity |].
  subst y.
  destruct (np_take_ok Plot.classes (max_index (eval_outputs wf b)))
    as (ts & Hts & Hlts & _).
  { eapply Forall_impl; [exact Hrange |]. cbn. intros k Hk. lia. }
  rewrite Hts. unfold Plot.plots_ims.
  destruct (Plot.grid_rows (Z.of_nat (length (images_of (inputs b)))) 5) as [e | rows] eqn:Hg.
  { unfold Plot.grid_rows in Hg. change (5 =? 0) with false in Hg.
    destruct (_ =? 0) in Hg; discriminate. }
  destruct (draw_outcome ts (map unnormal (images_of (inputs b))) 0) as [He Hc].
  rewrite length_map, Nat.sub_0_r in He, Hc.
  destruct (Plot.draw (Some ts) 0 (map unnormal (images_of (inputs b)))) as [axes e].
  cbn [fst snd] in *.
  destruct (Nat.ltb_spec (length ts) (length (images_of (inputs b)))) as [Hlt | _];
    [lia |].
  subst e. eexists. split; [reflexivity |]. cbn [Plot.fig_axes]. lia.
Qed.

End Prediction.

Lemma show_predictions_after_train_witness :
  (0 < 1)%nat /\
  max_index (eval_outputs
               (final (train fineTune_optimizer Toy.two_validation_batches 1 Toy.fineTune))
               (Toy.batch_of 1 0)) = [1] /\
  (show_predictions (TT := Toy.torch) (fun x => [x]) (fun x => x) (Toy.batch_of 1 0)
     (final (train fineTune_optimizer Toy.two_validation_batches 1 Toy.fineTune))).1
  = final (train fineTune_optimizer Toy.two_validation_batches 1 Toy.fineTune).
Proof.
  assert (E : max_index
                (eval_outputs
                   (final (train fineTune_optimizer Toy.two_validation_batches 1
                             Toy.fineTune))
                   (Toy.batch_of 1 0)) = [1]) by (vm_compute; reflexivity).
  split; [lia |]. split; [exact E |].
  refine (proj1 (show_predictions_after_train (TT := Toy.torch)
                   (fun x => [x]) (fun x => x)
                   fineTune_optimizer Toy.two_validation_batches 1 Toy.fineTune
                   (Toy.batch_of 1 0) ltac:(lia) _ _)).
  - rewrite E. repeat constructor; lia.
  - rewrite E. reflexivity.
Defined.

(** ** Gradients over a training pass *)

Section Gradients.

Context {TT : Torch}.

Lemma update_world_grad_other (opt : optimizer) (b : batch) (w : world) (name : string)
    (p : param) :
  NoDup (opt_params opt) ->
  name ∉ opt_params opt ->
  params w !! name = Some p ->
  requires_grad p = true ->
  params (update_world opt b w) !! name =
  Some (Param (data p)
          (Some (match grad p with
                 | None => fresh_gradient opt b w name
                 | Some old => t_add old (fresh_gradient opt b w name)
                 end))
          true).
Proof.
  intros Hnd Hnot Hp Hr.
  destruct (update_world_params opt b w) as [HP _]. rewrite HP. unfold adam_step.
  destruct (adam_fold_other (lr opt) (opt_params opt) name Hnot
              (params (final (forward_backward opt b w)), adam w)) as [-> _].
  cbn [fst].
  rewrite (forward_backward_grad opt b w name p Hnd Hp Hr).
  rewrite bool_decide_eq_false_2 by exact Hnot. reflexivity.
Qed.

Lemma update_world_grad_member (opt : optimizer) (b : batch) (w : world) (name : string)
    (p : param) :
  NoDup (opt_params opt) ->
  name ∈ opt_params opt ->
  params w !! name = Some p ->
  requires_grad p = true ->
  exists d,
    params (update_world opt b w) !! name =
    Some (Param d
            (Some (match grad p with
                   | None => fresh_gradient opt b w name
                   | Some old => t_add (zeros_like old) (fresh_gradient opt b w name)
                   end))
            true).
Proof.
  intros Hnd Hin Hp Hr.
  destruct (update_world_member opt b w name p Hnd Hin Hp Hr) as (g & Hg & HP & _).
  cbn zeta in HP. unfold grad_of in Hg.
  rewrite (forward_backward_grad opt b w name p Hnd Hp Hr) in Hg.
  rewrite bool_decide_eq_true_2 in Hg by exact Hin.
  cbn in Hg. injection Hg as <-.
  destruct (grad p) as [old |]; eexists; rewrite HP; reflexivity.
Qed.

Lemma pass_world_grad_other (opt : optimizer) (name : string) (bs : list batch) :
  NoDup (opt_params opt) ->
  name ∉ opt_params opt ->
  forall (w : world) (p : param),
    params w !! name = Some p ->
    requires_grad p = true ->
    grad_of (pass_world opt w bs) name =
    accumulate_all (grad p) (pass_gradients opt w bs name).
Proof.
  intros Hnd Hnot. induction bs as [| b bs IH]; intros w p Hp Hr.
  - cbn [pass_world pass_gradients]. unfold grad_of. rewrite Hp. reflexivity.
  - cbn [pass_world pass_gradients].
    rewrite (IH _ _ (update_world_grad_other opt b w name p Hnd Hnot Hp Hr) eq_refl).
    reflexivity.
Qed.

Lemma pass_world_grad_member (opt : optimizer) (name : string) (bs : list batch) :
  NoDup (opt_params opt) ->
  name ∈ opt_params opt ->
  forall (w : world) (p : param),
    params w !! name = Some p ->
    requires_grad p = true ->
    grad_of (pass_world opt w bs) name =
    latest_gradient (grad p) (pass_gradients opt w bs name).
Proof.
  intros Hnd Hin. induction bs as [| b bs IH]; intros w p Hp Hr.
  - cbn [pass_world pass_gradients]. unfold grad_of. rewrite Hp. reflexivity.
  - cbn [pass_world pass_gradients].
    destruct (update_world_grad_member opt b w name p Hnd Hin Hp Hr) as [d Hd].
    rewrite (IH _ _ Hd eq_refl). reflexivity.
Qed.

(** X12.  In the fine-tuned set-up the gradient of a pretrained parameter is
    never cleared: after a training pass it holds the gradients of all the
    iterations of the pass, added one by one to what it held before. *)
Theorem frozen_gradients_accumulate (bs : list batch) (w : world) (name : string)
    (p : param) :
  In name (features_params TransferNet) ->
  params w !! name = Some p ->
  requires_grad p = true ->
  grad_of (pass_world fineTune_optimizer w bs) name =
  accumulate_all (grad p) (pass_gradients fineTune_optimizer w bs name).
Proof.
  intros Hin Hp Hr.
  apply pass_world_grad_other; try assumption.
  - apply fineTune_params_NoDup.
  - apply features_not_dense. exact Hin.
Qed.

Lemma Net_Seq_params_NoDup : NoDup (opt_params Net_Seq_optimizer).
Proof. apply (bool_decide_unpack _). vm_compute. exact I. Qed.

(** X13.  In the baseline set-up the optimizer owns every parameter of
    [Net_Seq]: over a training pass each of them receives one Adam step per
    batch, and its gradient does not accumulate, each iteration adding its
    gradient to a zeroed accumulator. *)
Theorem baseline_all_trained (bs : list batch) (w : world) (name : string) (p : param) :
  In name (parameters Net_Seq) ->
  params w !! name = Some p ->
  requires_grad p = true ->
  steps_of (pass_world Net_Seq_optimizer w bs) name =
    steps_of w name + Z.of_nat (length bs) /\
  grad_of (pass_world Net_Seq_optimizer w bs) name =
    latest_gradient (grad p) (pass_gradients Net_Seq_optimizer w bs name).
Proof.
  intros Hin Hp Hr.
  assert (Hmem : name ∈ opt_params Net_Seq_optimizer) by (apply list_elem_of_In; exact Hin).
  split.
  - assert (Ht : trainable w name) by (exists p; split; assumption).
    exact (proj2 (pass_world_steps _ name bs Net_Seq_params_NoDup Hmem w Ht)).
  - apply pass_world_grad_member; try assumption. apply Net_Seq_params_NoDup.
Qed.

End Gradients.

Lemma frozen_gradients_accumulate_witness :
  In "pretrained_layers.0.weight"%string (features_params TransferNet) /\
  params Toy.fineTune !! "pretrained_layers.0.weight"%string
    = Some (nn_Parameter 0.5%float) /\
  grad_of (pass_world fineTune_optimizer Toy.fineTune
             [Toy.batch_of 1 0; Toy.batch_of 1 0; Toy.batch_of 1 0])
          "pretrained_layers.0.weight" = Some 3%float.
Proof.
  assert (Hf : In "pretrained_layers.0.weight"%string (features_params TransferNet))
    by (left; reflexivity).
  assert (Hp : params Toy.fineTune !! "pretrained_layers.0.weight"%string
               = Some (nn_Parameter 0.5%float)) by (vm_compute; reflexivity).
  split; [exact Hf |]. split; [exact Hp |].
  rewrite (frozen_gradients_accumulate (TT := Toy.torch)
             [Toy.batch_of 1 0; Toy.batch_of 1 0; Toy.batch_of 1 0] Toy.fineTune
             "pretrained_layers.0.weight" (@nn_Parameter Toy.torch 0.5%float)
             Hf Hp eq_refl).
  vm_compute. reflexivity.
Defined.

Lemma baseline_all_trained_witness :
  In "convs.0.weight"%string (parameters Net_Seq) /\
  params Toy.baseline !! "convs.0.weight"%string = Some (nn_Parameter 0.5%float) /\
  steps_of (pass_world Net_Seq_optimizer Toy.baseline
              [Toy.batch_of 1 0; Toy.batch_of 1 0; Toy.batch_of 1 0])
           "convs.0.weight" = 3 /\
  grad_of (pass_world Net_Seq_optimizer Toy.baseline
             [Toy.batch_of 1 0; Toy.batch_of 1 0; Toy.batch_of 1 0])
          "convs.0.weight" = Some 1%float.
Proof.
  assert (Hin : In "convs.0.weight"%string (parameters Net_Seq)) by (left; reflexivity).
  assert (Hp : params Toy.baseline !! "convs.0.weight"%string
               = Some (nn_Parameter 0.5%float)) by (vm_compute; reflexivity).
  split; [exact Hin |]. split; [exact Hp |].
  pose proof (baseline_all_trained (TT := Toy.torch)
                [Toy.batch_of 1 0; Toy.batch_of 1 0; Toy.batch_of 1 0] Toy.baseline
                "convs.0.weight" (@nn_Parameter Toy.torch 0.5%float) Hin Hp eq_refl)
    as [Hs Hg].
  split.
  - rewrite Hs. vm_compute. reflexivity.
  - rewrite Hg. vm_compute. reflexivity.
Defined.

(** ** What [train] never changes *)

Section Invariants.

Context {TT : Torch}.

Lemma zero_grad_requires (opt : optimizer) (name : string) :
  forall P : gmap string param,
    requires_grad <$> zero_grad opt P !! name = requires_grad <$> P !! name.
Proof.
  unfold zero_grad. induction (opt_params opt) as [| n names IH]; intros P;
    [reflexivity |].
  cbn [fold_left]. rewrite IH. rewrite lookup_alter. case_decide; [| reflexivity].
  subst n. destruct (P !! name); reflexivity.
Qed.

Lemma backward_requires (g : string -> tensor) (P : gmap string param) (name : string) :
  requires_grad <$> backward g P !! name = requires_grad <$> P !! name.
Proof.
  rewrite backward_lookup. destruct (P !! name) as [p |]; [| reflexivity].
  cbn. unfold accumulate. destruct (requires_grad p) eqn:E; cbn; congruence.
Qed.

Lemma adam_one_requires (rate : float) (n name : string)
    (PS : gmap string param * gmap string adam_state) :
  requires_grad <$> (adam_one rate n PS).1 !! name = requires_grad <$> PS.1 !! name.
Proof.
  unfold adam_one. destruct (PS.1 !! n) as [p |] eqn:Hp; [| reflexivity].
  destruct (grad p) as [g |]; [| reflexivity].
  destruct (adam_update rate _ _ _ _ _) as [[d m] v]. cbn [fst].
  rewrite lookup_insert. case_decide as Hn; [| reflexivity].
  subst n. rewrite Hp. reflexivity.
Qed.

Lemma adam_step_requires (opt : optimizer) (name : string) :
  forall PS : gmap string param * gmap string adam_state,
    requires_grad <$> (adam_step opt PS).1 !! name = requires_grad <$> PS.1 !! name.
Proof.
  unfold adam_step. induction (opt_params opt) as [| n names IH]; intros PS;
    [reflexivity |].
  cbn [fold_left]. rewrite IH. apply adam_one_requires.
Qed.

Lemma update_world_requires (opt : optimizer) (b : batch) (w : world) (name : string) :
  requires_grad <$> params (update_world opt b w) !! name
  = requires_grad <$> params w !! name.
Proof.
  destruct (update_world_params opt b w) as [-> _].
  rewrite adam_step_requires. cbn [fst].
  rewrite forward_backward_run. cbn [final params].
  rewrite backward_requires. apply zero_grad_requires.
Qed.

Lemma pass_world_requires (opt : optimizer) (name : string) (bs : list batch) :
  forall w : world,
    requires_grad <$> params (pass_world opt w bs) !! name
    = requires_grad <$> params w !! name.
Proof.
  induction bs as [| b bs IH]; intros w; [reflexivity |].
  cbn [pass_world]. rewrite IH. apply update_world_requires.
Qed.

Lemma run_epochs_requires (opt : optimizer) (ld : loaders) (name : string)
    (epochs : list nat) :
  forall (i : option Z) (w : world),
    requires_grad <$> params (final (run_epochs opt ld epochs i w)) !! name
    = requires_grad <$> params w !! name.
Proof.
  induction epochs as [| e epochs IH]; intros i w; [reflexivity |].
  cbn [run_epochs]. unfold bind.
  assert (He : requires_grad <$> params (final (run_epoch opt ld e i w)) !! name
               = requires_grad <$> params w !! name).
  { rewrite run_epoch_final. unfold validated, trained. cbn [params].
    apply (pass_world_requires opt name (trainloader ld e)
             (World (set_mode true (model w)) (params w) (adam w) (rng w))). }
  destruct (result (run_epoch opt ld e i w)) as [err | i']; cbn [final].
  - exact He.
  - rewrite IH. exact He.
Qed.

(** X14.  A run of [train], whatever its outcome, neither creates nor
    deletes a parameter and never changes a [requires_grad] flag: a
    parameter that took part in gradient computation before the run still
    does after it. *)
Theorem train_keeps_requires_grad (opt : optimizer) (ld : loaders) (num_epochs : nat)
    (w : world) (name : string) :
  requires_grad <$> params (final (train opt ld num_epochs w)) !! name
  = requires_grad <$> params w !! name.
Proof.
  unfold train, bind.
  pose proof (run_epochs_requires opt ld name (seq 0 num_epochs) None w) as H.
  destruct (result (run_epochs opt ld (seq 0 num_epochs) None w)); cbn [final]; exact H.
Qed.

End Invariants.

(** ** The cell that shows samples *)

Lemma np_take_nonneg (a : list string) (idx : list Z) :
  Forall (fun k => 0 <= k < Z.of_nat (length a)) idx ->
  Plot.np_take a idx = inr (map (fun k => nth (Z.to_nat k) a EmptyString) idx).
Proof.
  induction idx as [| k idx IH]; intros H; [reflexivity |].
  apply Forall_cons in H as [Hk Hrest].
  cbn [Plot.np_take map]. rewrite (IH Hrest).
  unfold Plot.np_item. cbn zeta.
  destruct (Z.leb_spec 0 k); [| lia].
  destruct (Z.ltb_spec k (Z.of_nat (length a))); [| lia]. cbn [andb].
  unfold Plot.title_at. rewrite nth_lookup.
  destruct (lookup_lt_is_Some_2 a (Z.to_nat k) ltac:(lia)) as [t ->]. reflexivity.
Qed.

Lemma draw_titled {A : Type} (ts : list string) (ims : list A) :
  forall i : nat,
    (i + length ims <= length ts)%nat ->
    (Plot.draw (Some ts) i ims).2 = None /\
    map Plot.sp_title (Plot.draw (Some ts) i ims).1
      = map Some (take (length ims) (drop i ts)) /\
    map Plot.sp_image (Plot.draw (Some ts) i ims).1 = ims.
Proof.
  induction ims as [| im ims IH]; intros i Hlen.
  - cbn [Plot.draw length fst snd map take]. repeat split.
  - cbn [length] in Hlen. cbn [Plot.draw length]. unfold Plot.title_at.
    destruct (lookup_lt_is_Some_2 ts i ltac:(lia)) as [t Ht]. rewrite Ht.
    destruct (IH (S i) ltac:(lia)) as (He & Htitles & Hims).
    destruct (Plot.draw (Some ts) (S i) ims) as [rest e]. cbn [fst snd map] in *.
    rewrite (drop_S ts t i Ht). cbn [take map].
    rewrite Htitles, Hims. repeat split; assumption.
Qed.

Section Samples.

Context {TT : Torch}.

Variable images_of : tensor -> list tensor.
Variable unnormal : tensor -> tensor.

(** X15.  For a batch with one label per image and every label a class
    index below 10, the cell that shows samples draws the rescaled images
    in order, each under the name of its class, and nothing is raised. *)
Theorem show_samples_titles (b : batch) :
  Forall (fun k => 0 <= k < 10) (class_ids b) ->
  length (images_of (inputs b)) = length (class_ids b) ->
  exists fig,
    show_samples images_of unnormal b = inr (Some fig, None) /\
    map Plot.sp_image (Plot.fig_axes fig) = map unnormal (images_of (inputs b)) /\
    map Plot.sp_title (Plot.fig_axes fig)
      = map (fun k => Some (nth (Z.to_nat k) Plot.classes EmptyString)) (class_ids b).
Proof.
  intros Hrange Hlen. unfold show_samples.
  rewrite (np_take_nonneg Plot.classes (class_ids b) Hrange).
  set (ts := map (fun k => nth (Z.to_nat k) Plot.classes EmptyString) (class_ids b)).
  assert (Hts : length ts = length (class_ids b)) by (subst ts; apply length_map).
  unfold Plot.plots_ims.
  destruct (Plot.grid_rows (Z.of_nat (length (images_of (inputs b)))) 5) as [e | rows] eqn:Hg.
  { unfold Plot.grid_rows in Hg. change (5 =? 0) with false in Hg.
    destruct (_ =? 0) in Hg; discriminate. }
  destruct (draw_titled ts (map unnormal (images_of (inputs b))) 0) as (He & Ht & Hi).
  { rewrite length_map. lia. }
  rewrite length_map, drop_0 in Ht.
  rewrite take_ge in Ht by lia.
  destruct (Plot.draw (Some ts) 0 (map unnormal (images_of (inputs b)))) as [axes e].
  cbn [fst snd] in *. subst e.
  eexists. split; [reflexivity |]. cbn [Plot.fig_axes].
  split; [exact Hi |]. rewrite Ht. subst ts. rewrite map_map. reflexivity.
Qed.

End Samples.

Lemma show_samples_titles_witness :
  Forall (fun k => 0 <= k < 10) (class_ids (Toy.batch_of 1 3)) /\
  exists fig,
    show_samples (TT := Toy.torch) (fun x => [x]) (fun x => x) (Toy.batch_of 1 3)
      = inr (Some fig, None) /\
    map Plot.sp_title (Plot.fig_axes fig) = [Some "cat"%string].
Proof.
  assert (H : Forall (fun k => 0 <= k < 10) (class_ids (Toy.batch_of 1 3))).
  { repeat constructor; cbn; lia. }
  split; [exact H |].
  destruct (show_samples_titles (TT := Toy.torch) (fun x => [x]) (fun x => x)
              (Toy.batch_of 1 3) H eq_refl) as (fig & Hfig & _ & Ht).
  exists fig. split; [exact Hfig | exact Ht].
Defined.
